(** * Global Economy Indicators: the analysis pipeline of [Project1.py]

    A shallow embedding of the data loader, the feature engineering step, the
    two regression drivers, the comparable-country selector and the top-level
    dispatcher, together with the properties of the design document that can
    be settled on them.

    Numbers are binary64 floats, as pandas holds a numeric column: the kernel's
    primitive [float] with its IEEE 754 operations.  A missing numeric cell is
    NaN.  The estimation packages (statsmodels, linearmodels) and the chart
    rendering are outside the program: they are taken as given, as the fields
    of a record the drivers are parameterised by. *)

From Stdlib Require Import ZArith List String Ascii Bool Lia Floats OrdersEx Sorted.
From Stdlib Require Import RelationClasses.
From Stdlib Require Uint63.
Import ListNotations.

(** * Part I: the embedding *)

(** ** The income classification of feature_engineering *)

(** The four labels [classify_income_group] returns: 'Low income',
    'Lower middle income', 'Upper middle income', 'High income'. *)
Inductive IncomeGroup : Type :=
| Low_income
| Lower_middle_income
| Upper_middle_income
| High_income.

Definition IncomeGroup_eqb (g h : IncomeGroup) : bool :=
  match g, h with
  | Low_income, Low_income
  | Lower_middle_income, Lower_middle_income
  | Upper_middle_income, Upper_middle_income
  | High_income, High_income => true
  | _, _ => false
  end.

Definition classify_income_group (gni : float) : IncomeGroup :=
  if (gni <=? 1145)%float then Low_income
  else if (gni <=? 4515)%float then Lower_middle_income
  else if (gni <=? 14005)%float then Upper_middle_income
  else High_income.

(** ** Outcomes of a call and the state of the outside world *)

(** A Python exception, by the name of its class.  The program defines no
    exception class of its own. *)
Inductive exn : Type :=
| Exn (name : string).

Definition exn_eqb (a b : exn) : bool :=
  match a, b with Exn x, Exn y => String.eqb x y end.

Definition FileNotFoundError : exn := Exn "FileNotFoundError".
Definition EOFError : exn := Exn "EOFError".

(** The failures the design document names. *)
Definition DataError : exn := Exn "DataError".
Definition DegenerateDesignError : exn := Exn "DegenerateDesignError".
Definition DuplicatePanelKey : exn := Exn "DuplicatePanelKey".

Inductive result (A : Type) : Type :=
| Returned (a : A)
| Raised (e : exn).

Arguments Returned {A} a.
Arguments Raised {A} e.

(** The outcome of calling a function whose body has no failing step. *)
Definition returns {A : Type} (a : A) : result A := Returned a.

(** ** The table *)

(** One row of the table [read_csv] yields, on the eight columns the loader
    retains.  An absent cell of the text column or of the year is [None]; an
    absent cell of a numeric column is NaN. *)
Record RawRow : Type := mkRawRow {
  raw_Country : option string;
  raw_Year : option Z;
  raw_Population : float;
  raw_GDP : float;
  raw_Per_capita_GNI : float;
  raw_Agriculture : float;
  raw_Manufacturing : float;
  raw_Transport_Comm : float
}.

(** One row of the cleaned table. *)
Record Observation : Type := mkObservation {
  Country : string;
  Year : Z;
  Population : float;
  GDP : float;
  Per_capita_GNI : float;
  Agriculture : float;
  Manufacturing : float;
  Transport_Comm : float
}.

(** One row after feature engineering: the eight columns and the five new
    ones. *)
Record Enriched : Type := mkEnriched {
  obs : Observation;
  Income_Group : IncomeGroup;
  GDP_per_capita : float;
  Agriculture_Share : float;
  Manufacturing_Share : float;
  Transport_Comm_Share : float
}.

Record World : Type := mkWorld {
  disk : string -> option (list RawRow);
  stdout : list string;
  written : list (string * string)
}.

(** ** Effectful code: state passing with failure *)

Definition M (A : Type) : Type := World -> result A * World.

Definition ret {A : Type} (a : A) : M A := fun w => (Returned a, w).

Definition bind {A B : Type} (c : M A) (k : A -> M B) : M B :=
  fun w =>
    match c w with
    | (Returned a, w') => k a w'
    | (Raised e, w') => (Raised e, w')
    end.

Definition raise {A : Type} (e : exn) : M A := fun w => (Raised e, w).

(** A call into a package: its outcome, the world untouched. *)
Definition call {A : Type} (r : result A) : M A := fun w => (r, w).

Declare Scope py_scope.
Delimit Scope py_scope with py.
Notation "x <- c ;; k" := (bind c (fun x => k))
  (at level 61, c at next level, right associativity) : py_scope.
Notation "c ;; k" := (bind c (fun _ => k))
  (at level 61, right associativity) : py_scope.

Definition to_stdout (s : string) (w : World) : World :=
  {| disk := disk w; stdout := stdout w ++ [s]; written := written w |}.

Definition to_file (name text : string) (w : World) : World :=
  {| disk := disk w; stdout := stdout w; written := written w ++ [(name, text)] |}.

Definition print (s : string) : M unit := fun w => (Returned tt, to_stdout s w).

(** [with open(name, 'w') as f: f.write(text)] *)
Definition write_file (name text : string) : M unit :=
  fun w => (Returned tt, to_file name text w).

(** [try: c  except FileNotFoundError: handler] *)
Definition try_except_FileNotFoundError {A : Type} (c handler : M A) : M A :=
  fun w =>
    match c w with
    | (Raised e, w') =>
        if exn_eqb e FileNotFoundError then handler w' else (Raised e, w')
    | r => r
    end.

Definition nl : string := String "010"%char EmptyString.

(** ** The packages the program calls *)

(** pandas' mean of a group, the estimation entry points of statsmodels and
    linearmodels with the text of their summaries. *)
Record Packages : Type := mkPackages {
  mean : list float -> float;
  add_constant : list (list float) -> list (list float);
  OLSModel : Type;
  OLSResults : Type;
  OLS : list float -> list (list float) -> result OLSModel;
  OLS_fit : OLSModel -> result OLSResults;
  OLS_summary : OLSResults -> string;
  PanelModel : Type;
  PanelResults : Type;
  PanelOLS : list ((string * Z) * float) ->
             list ((string * Z) * list float) ->
             bool -> result PanelModel;
  PanelOLS_fit : PanelModel -> result PanelResults;
  PanelResults_str : PanelResults -> string
}.

(** ** data_preparation *)

Definition read_csv (file_path : string) : M (list RawRow) :=
  fun w =>
    match disk w file_path with
    | Some table => (Returned table, w)
    | None => (Raised FileNotFoundError, w)
    end.

Definition isna_cell {A : Type} (c : option A) : bool :=
  match c with None => true | Some _ => false end.

(** Some cell of the row is absent. *)
Definition row_has_na (r : RawRow) : bool :=
  isna_cell (raw_Country r) || isna_cell (raw_Year r) ||
  is_nan (raw_Population r) || is_nan (raw_GDP r) ||
  is_nan (raw_Per_capita_GNI r) || is_nan (raw_Agriculture r) ||
  is_nan (raw_Manufacturing r) || is_nan (raw_Transport_Comm r).

(** Every cell of the row is there. *)
Definition all_present (r : RawRow) : Prop :=
  raw_Country r <> None /\ raw_Year r <> None /\
  is_nan (raw_Population r) = false /\ is_nan (raw_GDP r) = false /\
  is_nan (raw_Per_capita_GNI r) = false /\ is_nan (raw_Agriculture r) = false /\
  is_nan (raw_Manufacturing r) = false /\ is_nan (raw_Transport_Comm r) = false.

Definition observation_of (r : RawRow) : option Observation :=
  match raw_Country r, raw_Year r with
  | Some c, Some y =>
      Some {| Country := c; Year := y;
              Population := raw_Population r; GDP := raw_GDP r;
              Per_capita_GNI := raw_Per_capita_GNI r;
              Agriculture := raw_Agriculture r;
              Manufacturing := raw_Manufacturing r;
              Transport_Comm := raw_Transport_Comm r |}
  | _, _ => None
  end.

Definition raw_of (o : Observation) : RawRow :=
  {| raw_Country := Some (Country o); raw_Year := Some (Year o);
     raw_Population := Population o; raw_GDP := GDP o;
     raw_Per_capita_GNI := Per_capita_GNI o;
     raw_Agriculture := Agriculture o;
     raw_Manufacturing := Manufacturing o;
     raw_Transport_Comm := Transport_Comm o |}.

(** [df_cleaned.dropna(inplace=True)]: the rows with an absent cell go, the
    others stay in their order. *)
Fixpoint dropna (df : list RawRow) : list Observation :=
  match df with
  | [] => []
  | r :: rest =>
      if row_has_na r then dropna rest
      else match observation_of r with
           | Some o => o :: dropna rest
           | None => dropna rest
           end
  end.

Definition not_found_message (file_path : string) : string :=
  "Error: The file '" ++ file_path ++
  "' was not found. Please ensure it is in the same directory as the script.".

(** The header is trimmed, the eight columns selected and renamed: a row of
    the table is taken on these columns from the start ([RawRow]). *)
Definition data_preparation (file_path : string) : M (option (list Observation)) :=
  (loaded <- try_except_FileNotFoundError
               (df <- read_csv file_path ;;
                ret (Some df))
               (print (not_found_message file_path) ;;
                ret None) ;;
   match loaded with
   | None => ret None
   | Some df =>
       let df_cleaned := df in
       ret (Some (dropna df_cleaned))
   end)%py.

(** ** feature_engineering *)

Definition column {R A : Type} (f : R -> A) (df : list R) : list A := map f df.

(** Element-wise quotient of two columns. *)
Fixpoint series_div (a b : list float) : list float :=
  match a, b with
  | x :: a', y :: b' => (x / y)%float :: series_div a' b'
  | _, _ => []
  end.

Definition series_mul (a : list float) (k : float) : list float :=
  map (fun x => (x * k)%float) a.

(** The five column assignments, row by row. *)
Fixpoint assign_features (df : list Observation) (ig : list IncomeGroup)
  (pc ag mf tc : list float) : list Enriched :=
  match df, ig, pc, ag, mf, tc with
  | o :: df', g :: ig', p :: pc', a :: ag', m :: mf', t :: tc' =>
      {| obs := o; Income_Group := g; GDP_per_capita := p;
         Agriculture_Share := a; Manufacturing_Share := m;
         Transport_Comm_Share := t |}
      :: assign_features df' ig' pc' ag' mf' tc'
  | _, _, _, _, _, _ => []
  end.

Definition feature_engineering (df : list Observation) : list Enriched :=
  assign_features df
    (map classify_income_group (column Per_capita_GNI df))
    (series_div (column GDP df) (column Population df))
    (series_mul (series_div (column Agriculture df) (column GDP df)) 100)
    (series_mul (series_div (column Manufacturing df) (column GDP df)) 100)
    (series_mul (series_div (column Transport_Comm df) (column GDP df)) 100).

(** What the five assignments give on one row. *)
Definition derive (o : Observation) : Enriched :=
  {| obs := o;
     Income_Group := classify_income_group (Per_capita_GNI o);
     GDP_per_capita := (GDP o / Population o)%float;
     Agriculture_Share := (Agriculture o / GDP o * 100)%float;
     Manufacturing_Share := (Manufacturing o / GDP o * 100)%float;
     Transport_Comm_Share := (Transport_Comm o / GDP o * 100)%float |}.

(** ** perform_regression *)

Definition regressors (df : list Enriched) : list (list float) :=
  map (fun r => [Agriculture_Share r; Manufacturing_Share r; Transport_Comm_Share r]) df.

Definition perform_regression (P : Packages) (df : list Enriched) : M (OLSResults P) :=
  (print (nl ++ "--- OLS Regression Analysis Summary ---") ;;
   let y := column GDP_per_capita df in
   let X := regressors df in
   let X := add_constant P X in
   fitted <- call (OLS P y X) ;;
   model <- call (OLS_fit P fitted) ;;
   print (OLS_summary P model) ;;
   write_file "regression_summary.txt" (OLS_summary P model) ;;
   print (nl ++ "Regression summary saved to 'regression_summary.txt'.") ;;
   ret model)%py.

(** ** perform_panel_analysis *)

Definition panel_key (r : Enriched) : string * Z := (Country (obs r), Year (obs r)).

(** [df.set_index(['Country', 'Year'])] *)
Definition set_index (df : list Enriched) : list ((string * Z) * Enriched) :=
  map (fun r => (panel_key r, r)) df.

Definition panel_dependent (df : list Enriched) : list ((string * Z) * float) :=
  map (fun kr => (fst kr, GDP_per_capita (snd kr))) (set_index df).

Definition panel_exog (df : list Enriched) : list ((string * Z) * list float) :=
  map (fun kr => (fst kr, [Agriculture_Share (snd kr);
                           Manufacturing_Share (snd kr);
                           Transport_Comm_Share (snd kr)])) (set_index df).

Definition perform_panel_analysis (P : Packages) (df : list Enriched) : M unit :=
  (print (nl ++ "--- Fixed-Effects Panel Data Analysis Summary ---") ;;
   let dependent := panel_dependent df in
   let exog := panel_exog df in
   panel_model <- call (PanelOLS P dependent exog true) ;;
   panel_results <- call (PanelOLS_fit P panel_model) ;;
   print (PanelResults_str P panel_results) ;;
   write_file "panel_regression_summary.txt" (PanelResults_str P panel_results) ;;
   print (nl ++ "Panel regression summary saved to 'panel_regression_summary.txt'.") ;;
   ret tt)%py.

(** ** get_comparable_countries *)

Definition country (r : Enriched) : string := Country (obs r).

(** The keys of [groupby('Country')]: each country once, in ascending order
    of its name. *)
Fixpoint insert_key (c : string) (keys : list string) : list string :=
  match keys with
  | [] => [c]
  | d :: keys' =>
      match String_as_OT.compare c d with
      | Lt => c :: keys
      | Eq => keys
      | Gt => d :: insert_key c keys'
      end
  end.

Definition group_keys (cs : list string) : list string :=
  fold_right insert_key [] cs.

(** The Population cells of the rows of one country. *)
Definition population_of (df : list Enriched) (c : string) : list float :=
  map (fun r => Population (obs r))
      (filter (fun r => String.eqb (country r) c) df).

(** [df.groupby('Country')['Population'].mean().reset_index()] *)
Definition avg_population (P : Packages) (df : list Enriched) : list (string * float) :=
  map (fun c => (c, mean P (population_of df c))) (group_keys (map country df)).

Definition min_population : float := 10000000.
Definition max_population : float := 50000000.

Definition in_band (p : float) : bool :=
  (min_population <=? p)%float && (p <=? max_population)%float.

Definition comparable_countries_df (P : Packages) (df : list Enriched) : list (string * float) :=
  filter (fun cp => in_band (snd cp)) (avg_population P df).

(** [drop_duplicates()] and [unique()]: the first occurrence of each value
    stays, in its place. *)
Fixpoint drop_duplicates {A : Type} (eqb : A -> A -> bool) (l : list A) : list A :=
  match l with
  | [] => []
  | x :: l' => x :: filter (fun y => negb (eqb x y)) (drop_duplicates eqb l')
  end.

Definition label_eqb (a b : string * IncomeGroup) : bool :=
  String.eqb (fst a) (fst b) && IncomeGroup_eqb (snd a) (snd b).

(** [df[['Country', 'Income_Group']].drop_duplicates()] *)
Definition country_income_map (df : list Enriched) : list (string * IncomeGroup) :=
  drop_duplicates label_eqb (map (fun r => (country r, Income_Group r)) df).

(** [pd.merge(left, right, on='Country', how='left')]: the rows of [left] in
    their order, each once per row of [right] with its country, and once with
    no label when there is none. *)
Definition merge_row (cp : string * float) (right : list (string * IncomeGroup)) :
  list (string * float * option IncomeGroup) :=
  match filter (fun cg => String.eqb (fst cg) (fst cp)) right with
  | [] => [(fst cp, snd cp, None)]
  | matches => map (fun cg => (fst cp, snd cp, Some (snd cg))) matches
  end.

Definition merge_left (left : list (string * float)) (right : list (string * IncomeGroup)) :
  list (string * float * option IncomeGroup) :=
  flat_map (fun cp => merge_row cp right) left.

Definition merged (P : Packages) (df : list Enriched) : list (string * float * option IncomeGroup) :=
  merge_left (comparable_countries_df P df) (country_income_map df).

Definition groups : list IncomeGroup :=
  [High_income; Upper_middle_income; Lower_middle_income; Low_income].

Definition has_label (g : IncomeGroup) (row : string * float * option IncomeGroup) : bool :=
  match snd row with
  | Some h => IncomeGroup_eqb h g
  | None => false
  end.

(** [comparable_countries_df[... == group]['Country'].unique()] *)
Definition group_countries (P : Packages) (df : list Enriched) (group : IncomeGroup) : list string :=
  drop_duplicates String.eqb
    (map (fun row => fst (fst row)) (filter (has_label group) (merged P df))).

Definition selected_countries (P : Packages) (df : list Enriched) : list string :=
  fold_left
    (fun selected group =>
       let gc := group_countries P df group in
       if (0 <? List.length gc)%nat then selected ++ firstn 3 gc else selected)
    groups [].

Definition get_comparable_countries (P : Packages) (df : list Enriched) : M (list string) :=
  (print (nl ++ "Selecting countries with comparable populations...") ;;
   ret (selected_countries P df))%py.

(** ** main *)

Definition file_path : string := "Global Economy Indicators.csv".

Definition print_menu : M unit :=
  (print (nl ++ "What would you like to do?") ;;
   print "1. Perform Statistical Analysis (OLS Regression)" ;;
   print "2. Generate a Visualization" ;;
   print "3. Perform Panel Data Analysis" ;;
   print "4. Exit")%py.

Definition choice_prompt : string := "Enter your choice (1, 2, 3, or 4): ".
Definition vis_prompt : string :=
  "Which visualization? (1: Bar Plot, 2: Line Plot, 3: Facet Chart, 4: Scatter Plot, 5: Box Plot): ".

(** The [while True] loop, on the lines still to be read from the terminal:
    [input] shows its prompt and takes the next line, and fails with EOFError
    when there is none.  The chart rendering [visualize_data] is a given
    procedure. *)
Fixpoint menu_loop (P : Packages)
  (visualize_data : list Enriched -> string -> list string -> M unit)
  (df_engineered : list Enriched) (selected : list string)
  (inputs : list string) : M unit :=
  (print_menu ;;
   print choice_prompt ;;
   match inputs with
   | [] => raise EOFError
   | choice :: rest =>
       if String.eqb choice "1" then
         _ <- perform_regression P df_engineered ;;
         menu_loop P visualize_data df_engineered selected rest
       else if String.eqb choice "2" then
         print vis_prompt ;;
         match rest with
         | [] => raise EOFError
         | vis_choice :: rest' =>
             visualize_data df_engineered vis_choice selected ;;
             menu_loop P visualize_data df_engineered selected rest'
         end
       else if String.eqb choice "3" then
         perform_panel_analysis P df_engineered ;;
         menu_loop P visualize_data df_engineered selected rest
       else if String.eqb choice "4" then
         print "Exiting script."
       else
         print "Invalid choice. Please enter 1, 2, 3, or 4." ;;
         menu_loop P visualize_data df_engineered selected rest
   end)%py.

Definition main (P : Packages)
  (visualize_data : list Enriched -> string -> list string -> M unit)
  (inputs : list string) : M unit :=
  (print "--- Interactive Data Analysis and Visualization ---" ;;
   df_clean <- data_preparation file_path ;;
   match df_clean with
   | None => ret tt
   | Some df_clean =>
       let df_engineered := feature_engineering df_clean in
       selected <- get_comparable_countries P df_engineered ;;
       menu_loop P visualize_data df_engineered selected inputs
   end)%py.

(** ** The design document's reading of the selector *)

(** The countries in the order of their first row. *)
Definition first_seen (df : list Enriched) : list string :=
  drop_duplicates String.eqb (map country df).

(** [l] lists some entries of [s], in the order they have in [s]. *)
Fixpoint in_order_of (l s : list string) : bool :=
  match s with
  | [] => match l with [] => true | _ :: _ => false end
  | y :: s' =>
      match l with
      | [] => true
      | x :: l' => if String.eqb x y then in_order_of l' s' else in_order_of l s'
      end
  end.

(** The income labels a country carries, over all of its rows. *)
Definition labels_of (df : list Enriched) (c : string) : list IncomeGroup :=
  map Income_Group (filter (fun r => String.eqb (country r) c) df).

(** The label of the first row of a country. *)
Definition first_label (df : list Enriched) (c : string) : option IncomeGroup :=
  hd_error (labels_of df c).

(** Every country has one label over all its rows. *)
Definition single_label (df : list Enriched) : Prop :=
  forall r1 r2, In r1 df -> In r2 df -> country r1 = country r2 ->
                Income_Group r1 = Income_Group r2.

(** What one group adds to the selection. *)
Definition group_contribution (P : Packages) (df : list Enriched) (g : IncomeGroup) : list string :=
  firstn 3 (group_countries P df g).

(** Strictly ascending country names: each name is before all later ones. *)
Definition ascending (l : list string) : Prop :=
  StronglySorted String_as_OT.lt l.

(** ** The panel keys *)






(** ** Sample inputs *)

(** The arithmetic mean, summed from the left. *)
Definition fmean (xs : list float) : float :=
  (fold_left PrimFloat.add xs 0 / of_uint63 (Uint63.of_Z (Z.of_nat (List.length xs))))%float.

(** Packages that accept every input: a model and its results are the data
    handed over. *)
Definition accepting_packages : Packages :=
  {| mean := fmean;
     add_constant := map (cons 1%float);
     OLSModel := list float * list (list float);
     OLSResults := list float * list (list float);
     OLS := fun y X => Returned (y, X);
     OLS_fit := fun m => Returned m;
     OLS_summary := fun _ => "OLS Regression Results"%string;
     PanelModel := list ((string * Z) * float) * list ((string * Z) * list float);
     PanelResults := list ((string * Z) * float) * list ((string * Z) * list float);
     PanelOLS := fun y X _ => Returned (y, X);
     PanelOLS_fit := fun m => Returned m;
     PanelResults_str := fun _ => "PanelOLS Estimation Summary"%string |}.

Definition empty_world : World :=
  {| disk := fun _ => None; stdout := []; written := [] |}.

Definition row (c : string) (y : Z) (pop gdp gni ag mf tc : float) : Observation :=
  {| Country := c; Year := y; Population := pop; GDP := gdp;
     Per_capita_GNI := gni; Agriculture := ag; Manufacturing := mf;
     Transport_Comm := tc |}.

(** Two high-income countries of comparable population, the later name
    first. *)
Definition df_order : list Observation :=
  [ row "Zed" 2000 20000000 100 20000 10 20 5;
    row "Abe" 2000 30000000 100 30000 10 20 5 ].

(** One country whose income label changes between two years. *)
Definition df_two_labels : list Observation :=
  [ row "Atlantis" 2000 20000000 100 1000 10 20 5;
    row "Atlantis" 2001 20000000 100 2000 10 20 5 ].

(** A row whose GDP is zero. *)
Definition df_zero_gdp : list Observation :=
  [ row "Abe" 2000 20000000 0 1000 10 0 5 ].

(** Manufacturing is twice agriculture on every row. *)
Definition df_collinear : list Observation :=
  [ row "Abe" 2000 20000000 100 1000 10 20 5;
    row "Abe" 2001 20000000 100 1100 12 24 6;
    row "Bea" 2000 30000000 100 5000 7 14 9;
    row "Bea" 2001 30000000 100 5200 8 16 3;
    row "Cyd" 2000 40000000 100 15000 3 6 11 ].

(** The same (Country, Year) on two rows. *)
Definition df_duplicate_key : list Observation :=
  [ row "Abe" 2000 20000000 100 1000 10 20 5;
    row "Abe" 2000 20000000 100 1100 12 25 6;
    row "Abe" 2001 20000000 100 1200 13 21 7 ].

(** A country with one row only, next to one with two. *)
Definition df_singleton : list Observation :=
  [ row "Abe" 2000 20000000 100 1000 10 20 5;
    row "Abe" 2001 20000000 100 1100 12 25 6;
    row "Bea" 2000 30000000 100 5000 8 15 9 ].

(** A raw table with gaps: the second row has no country, the third no GDP. *)
Definition raw_table : list RawRow :=
  [ mkRawRow (Some "Abe"%string) (Some 2000%Z) 20000000 100 1000 10 20 5;
    mkRawRow None (Some 2000%Z) 20000000 100 1000 10 20 5;
    mkRawRow (Some "Bea"%string) (Some 2001%Z) 30000000 nan 1000 10 20 5 ].

(** A world whose disk holds that table. *)
Definition table_world : World :=
  {| disk := fun p => if String.eqb p "table.csv" then Some raw_table else None;
     stdout := []; written := [] |}.

(** ** visualize_data *)

(** The charting packages (matplotlib, seaborn, with the pandas aggregation
    that feeds them): for each kind of chart, the image the calls of that
    branch produce from the data, or the exception they raise. *)
Record Charts : Type := mkCharts {
  bar_chart : list Enriched -> result string;
  line_plot : list Enriched -> result string;
  facet_chart : list Enriched -> result string;
  scatter_plots : list Enriched -> result string;
  box_plot : list Enriched -> result string
}.

(** [df['Country'].isin(selected_countries)] *)
Definition isin (selected_countries : list string) (r : Enriched) : bool :=
  existsb (String.eqb (country r)) selected_countries.

Definition visualize_data (C : Charts) (df : list Enriched) (vis_choice : string)
  (selected_countries : list string) : M unit :=
  (print (nl ++ "Generating Visualizations...") ;;
   if String.eqb vis_choice "1" then
     print "Generating Bar Chart..." ;;
     figure <- call (bar_chart C df) ;;
     write_file "gdp_by_income_group_bar_chart.png" figure ;;
     print "Bar chart saved to 'gdp_by_income_group_bar_chart.png'."
   else if String.eqb vis_choice "2" then
     print (nl ++ "Generating Line Plot...") ;;
     figure <- call (line_plot C df) ;;
     write_file "gdp_by_income_group_line_plot.png" figure ;;
     print "Line plot saved to 'gdp_by_income_group_line_plot.png'."
   else if String.eqb vis_choice "3" then
     match selected_countries with
     | [] =>
         print "No countries selected for the facet chart. Please select countries first."
     | _ :: _ =>
         print (nl ++ "Generating Facet Chart...") ;;
         let df_filtered := filter (isin selected_countries) df in
         figure <- call (facet_chart C df_filtered) ;;
         write_file "gdp_comparative_facet_chart.png" figure ;;
         print "Facet chart saved to 'gdp_comparative_facet_chart.png'."
     end
   else if String.eqb vis_choice "4" then
     print (nl ++ "Generating Scatter Plot...") ;;
     figure <- call (scatter_plots C df) ;;
     write_file "sectoral_impact_scatter_plots.png" figure ;;
     print "Scatter plots saved to 'sectoral_impact_scatter_plots.png'."
   else if String.eqb vis_choice "5" then
     print (nl ++ "Generating Box Plot...") ;;
     figure <- call (box_plot C df) ;;
     write_file "gdp_by_income_group_boxplot.png" figure ;;
     print "Box plot saved to 'gdp_by_income_group_boxplot.png'."
   else
     print "Invalid visualization choice.")%py.

(** ** Readings of the menu and of the charts *)

(** A line typed at the menu that starts no analysis and no chart. *)
Definition idle_choice (choice : string) : bool :=
  negb (String.eqb choice "1") && negb (String.eqb choice "2") &&
  negb (String.eqb choice "3").

(** A line typed at the chart prompt that names one of the five charts. *)
Definition chart_choice (vis_choice : string) : bool :=
  String.eqb vis_choice "1" || String.eqb vis_choice "2" ||
  String.eqb vis_choice "3" || String.eqb vis_choice "4" ||
  String.eqb vis_choice "5".

(** ** More sample inputs *)

(** Packages whose estimators reject every input. *)
Definition rejecting_packages : Packages :=
  {| mean := fmean;
     add_constant := map (cons 1%float);
     OLSModel := unit;
     OLSResults := unit;
     OLS := fun _ _ => Raised (Exn "LinAlgError");
     OLS_fit := fun _ => Returned tt;
     OLS_summary := fun _ => EmptyString;
     PanelModel := unit;
     PanelResults := unit;
     PanelOLS := fun _ _ _ => Raised (Exn "ValueError");
     PanelOLS_fit := fun _ => Returned tt;
     PanelResults_str := fun _ => EmptyString |}.


(** Charting packages that draw nothing and fail on every call. *)
Definition failing_charts : Charts :=
  {| bar_chart := fun _ => Raised (Exn "RuntimeError");
     line_plot := fun _ => Raised (Exn "RuntimeError");
     facet_chart := fun _ => Raised (Exn "RuntimeError");
     scatter_plots := fun _ => Raised (Exn "RuntimeError");
     box_plot := fun _ => Raised (Exn "RuntimeError") |}.

(** A row whose population is zero. *)
Definition df_zero_population : list Observation :=
  [ row "Abe" 2000 0 100 1000 10 20 5 ].

(** A row with no agriculture. *)
Definition df_no_agriculture : list Observation :=
  [ row "Abe" 2000 20000000 100 1000 0 20 5 ].

(** A country far below the population band. *)
Definition df_small : list Observation :=
  [ row "Abe" 2000 1000 100 1000 10 20 5 ].

(** The names under which [visualize_data] saves a chart. *)
Definition chart_files : list string :=
  [ "gdp_by_income_group_bar_chart.png"; "gdp_by_income_group_line_plot.png";
    "gdp_comparative_facet_chart.png"; "sectoral_impact_scatter_plots.png";
    "gdp_by_income_group_boxplot.png" ]%string.

(** A line typed at the menu that asks for one of the two analyses. *)
Definition analysis_choice (choice : string) : bool :=
  String.eqb choice "1" || String.eqb choice "3".

(** The summary file an analysis leaves. *)
Definition artifact_of (P : Packages) (res : OLSResults P) (pres : PanelResults P)
  (choice : string) : string * string :=
  if String.eqb choice "1"
  then ("regression_summary.txt"%string, OLS_summary P res)
  else ("panel_regression_summary.txt"%string, PanelResults_str P pres).

(** * Part II: properties *)

(** ** Binary64 facts used below *)

Module F64.

Local Open Scope float_scope.

(** The order of the specification floats is antisymmetric. *)
Lemma SFcompare_swap (a b : spec_float) :
  SFcompare b a = option_map CompOpp (SFcompare a b).
Proof.
  destruct a as [sa|sa| |sa ma ea], b as [sb|sb| |sb mb eb]; simpl;
    try reflexivity;
    try (destruct sa; reflexivity);
    try (destruct sb; reflexivity);
    try (destruct sa, sb; reflexivity).
  destruct sa, sb; simpl; try reflexivity.
  all: rewrite (Z.compare_antisym ea eb);
    destruct (ea ?= eb)%Z eqn:E; simpl; try reflexivity;
    change (PosDef.Pos.compare_cont Eq mb ma) with (Pos.compare mb ma);
    change (PosDef.Pos.compare_cont Eq ma mb) with (Pos.compare ma mb);
    now rewrite (Pos.compare_antisym ma mb).
Qed.

Lemma SFcompare_nan_free (a b : spec_float) :
  SFeqb a a = true -> SFeqb b b = true -> SFcompare a b <> None.
Proof.
  destruct a, b; simpl; intros Ha Hb; try discriminate.
Qed.

(** On numbers, [y < x] is the negation of [x <= y]. *)
Lemma ltb_negb_leb (x y : float) :
  is_nan x = false -> is_nan y = false -> (y <? x) = negb (x <=? y).
Proof.
  unfold is_nan. rewrite !FloatAxioms.eqb_spec, FloatAxioms.ltb_spec, FloatAxioms.leb_spec.
  intros Hx Hy.
  apply negb_false_iff in Hx. apply negb_false_iff in Hy.
  pose proof (SFcompare_nan_free _ _ Hx Hy) as Hc.
  unfold SFltb, SFleb. rewrite (SFcompare_swap (Prim2SF x) (Prim2SF y)).
  destruct (SFcompare (Prim2SF x) (Prim2SF y)) as [[ | | ]|];
    simpl; congruence.
Qed.

(** The order against a positive finite constant only looks at the sign,
    the exponent and the mantissa, in that order. *)
Lemma SFleb_pos_finite (a : spec_float) (m1 m2 : positive) (e1 e2 : Z) :
  (e1 < e2)%Z ->
  SFleb a (S754_finite false m1 e1) = true ->
  SFleb a (S754_finite false m2 e2) = true.
Proof.
  intros He. unfold SFleb.
  destruct a as [sa|sa| |sa ma ea]; simpl; try (intros; reflexivity);
    try (intros; assumption);
    try (destruct sa; intros; congruence).
  destruct sa; simpl; [ reflexivity | ].
  destruct (Z.compare_spec ea e1) as [E|E|E];
    destruct (Z.compare_spec ea e2) as [E'|E'|E']; try lia;
    try (intros; reflexivity); try discriminate.
Qed.

Lemma leb_1145_4515 (x : float) : (x <=? 1145) = true -> (x <=? 4515) = true.
Proof.
  rewrite !FloatAxioms.leb_spec.
  change (Prim2SF 1145) with (S754_finite false 5035763255214080 (-42)).
  change (Prim2SF 4515) with (S754_finite false 4964294999408640 (-40)).
  apply SFleb_pos_finite. lia.
Qed.

Lemma leb_4515_14005 (x : float) : (x <=? 4515) = true -> (x <=? 14005) = true.
Proof.
  rewrite !FloatAxioms.leb_spec.
  change (Prim2SF 4515) with (S754_finite false 4964294999408640 (-40)).
  change (Prim2SF 14005) with (S754_finite false 7699330173501440 (-39)).
  apply SFleb_pos_finite. lia.
Qed.

Lemma SFeqb_zero (a : spec_float) :
  SFeqb a (S754_zero false) = true -> exists s, a = S754_zero s.
Proof.
  destruct a as [sa|sa| |sa ma ea]; unfold SFeqb; simpl;
    try discriminate; try (destruct sa; discriminate).
  intros _. now exists sa.
Qed.

Lemma SFeqb_finite_refl (s : bool) (m : positive) (e : Z) :
  SFeqb (S754_finite s m e) (S754_finite s m e) = true.
Proof.
  unfold SFeqb, SFcompare.
  destruct s; rewrite Z.compare_refl;
    change (PosDef.Pos.compare_cont Eq m m) with (Pos.compare m m);
    rewrite Pos.compare_refl; reflexivity.
Qed.

Lemma SFeqb_self_false (a : spec_float) : SFeqb a a = false -> a = S754_nan.
Proof.
  destruct a as [sa|sa| |sa ma ea]; try reflexivity.
  - discriminate.
  - destruct sa; discriminate.
  - rewrite SFeqb_finite_refl. discriminate.
Qed.

Lemma is_finite_spec (x : float) :
  is_finite x = match Prim2SF x with
                | S754_nan | S754_infinity _ => false
                | _ => true
                end.
Proof.
  unfold is_finite, is_nan, is_infinity.
  rewrite !FloatAxioms.eqb_spec, FloatAxioms.abs_spec.
  change (Prim2SF infinity) with (S754_infinity false).
  destruct (Prim2SF x) as [sa|sa| |sa ma ea]; try reflexivity.
  - destruct sa; reflexivity.
  - rewrite SFeqb_finite_refl. reflexivity.
Qed.

(** A quotient by zero or by NaN, scaled by 100, is infinite or NaN. *)
Lemma share_not_finite (x g : float) :
  is_zero g = true \/ is_nan g = true -> is_finite (x / g * 100) = false.
Proof.
  intros Hg. rewrite is_finite_spec.
  rewrite FloatAxioms.mul_spec, FloatAxioms.div_spec.
  change (Prim2SF 100) with (S754_finite false 7036874417766400 (-46)).
  unfold SF64mul, SF64div.
  destruct Hg as [Hz|Hn].
  - unfold is_zero in Hz. rewrite FloatAxioms.eqb_spec in Hz.
    change (Prim2SF zero) with (S754_zero false) in Hz.
    destruct (SFeqb_zero _ Hz) as [s Hs]. rewrite Hs.
    destruct (Prim2SF x); reflexivity.
  - unfold is_nan in Hn. rewrite FloatAxioms.eqb_spec in Hn.
    apply negb_true_iff in Hn. rewrite (SFeqb_self_false _ Hn).
    destruct (Prim2SF x); reflexivity.
Qed.

End F64.

(** ** The income bands *)

(** C3. For every GNI that is a number, the classification is Low exactly
    when gni <= 1145, LowerMiddle exactly when 1145 < gni <= 4515,
    UpperMiddle exactly when 4515 < gni <= 14005 and High exactly when
    gni > 14005: each bound belongs to the band below it. *)
Theorem classify_income_group_bands (gni : float) :
  is_nan gni = false ->
  (classify_income_group gni = Low_income <-> (gni <=? 1145)%float = true) /\
  (classify_income_group gni = Lower_middle_income <->
     (1145 <? gni)%float = true /\ (gni <=? 4515)%float = true) /\
  (classify_income_group gni = Upper_middle_income <->
     (4515 <? gni)%float = true /\ (gni <=? 14005)%float = true) /\
  (classify_income_group gni = High_income <-> (14005 <? gni)%float = true).
Proof.
  intros Hnum.
  rewrite !(F64.ltb_negb_leb gni) by (assumption || reflexivity).
  pose proof (F64.leb_1145_4515 gni) as H1.
  pose proof (F64.leb_4515_14005 gni) as H2.
  unfold classify_income_group.
  destruct (gni <=? 1145)%float, (gni <=? 4515)%float, (gni <=? 14005)%float;
    simpl; repeat split; intros;
    repeat match goal with
           | H : _ /\ _ |- _ => destruct H
           | H : true = true -> _ |- _ => specialize (H eq_refl)
           end;
    congruence.
Qed.

Lemma classify_income_group_bands_witness :
  is_nan 1145%float = false /\
  classify_income_group 1145%float = Low_income.
Proof.
  split; [ reflexivity | ].
  apply (proj1 (classify_income_group_bands 1145%float eq_refl)).
  reflexivity.
Defined.

(** The bounds of the bands and the floats next above them. *)
Example classify_income_group_boundaries :
  classify_income_group 1145 = Low_income /\
  classify_income_group (next_up 1145) = Lower_middle_income /\
  classify_income_group 4515 = Lower_middle_income /\
  classify_income_group (next_up 4515) = Upper_middle_income /\
  classify_income_group 14005 = Upper_middle_income /\
  classify_income_group (next_up 14005) = High_income.
Proof. repeat split; reflexivity. Qed.

(** ** The loader *)

Lemma row_has_na_false_iff (r : RawRow) :
  row_has_na r = false <-> all_present r.
Proof.
  unfold row_has_na, all_present.
  rewrite !orb_false_iff.
  destruct (raw_Country r), (raw_Year r); simpl; intuition congruence.
Qed.

Lemma observation_of_complete (r : RawRow) :
  row_has_na r = false -> exists o, observation_of r = Some o /\ raw_of o = r.
Proof.
  intros H. apply row_has_na_false_iff in H.
  destruct H as (Hc & Hy & _).
  destruct r as [c y p g n a m t]; simpl in *.
  destruct c as [c|]; [ | congruence ].
  destruct y as [y|]; [ | congruence ].
  eexists. split; reflexivity.
Qed.

Lemma dropna_filter (df : list RawRow) :
  map raw_of (dropna df) = filter (fun r => negb (row_has_na r)) df.
Proof.
  induction df as [|r df IH]; simpl; [ reflexivity | ].
  destruct (row_has_na r) eqn:E; simpl; [ exact IH | ].
  destruct (observation_of_complete r E) as (o & Ho & Hr).
  rewrite Ho. simpl. now rewrite Hr, IH.
Qed.

Lemma data_preparation_found (w : World) (path : string) (table : list RawRow) :
  disk w path = Some table ->
  data_preparation path w = (Returned (Some (dropna table)), w).
Proof.
  intros H. unfold data_preparation, try_except_FileNotFoundError, bind, read_csv, ret.
  now rewrite H.
Qed.

(** C9. When the loader produces a dataset, it is the input table without the
    rows that miss a retained cell: the rows with all eight cells are kept, in
    their order, every row missing one is gone, and no numeric cell of the
    result is NaN (its country and year are there by construction). *)
Theorem data_preparation_drops_incomplete_rows
  (w : World) (path : string) (table : list RawRow) :
  disk w path = Some table ->
  data_preparation path w = (Returned (Some (dropna table)), w) /\
  map raw_of (dropna table) = filter (fun r => negb (row_has_na r)) table /\
  (forall o, In o (dropna table) -> all_present (raw_of o)) /\
  (forall r, In r table -> all_present r -> In r (map raw_of (dropna table))) /\
  (forall r, In r table -> ~ all_present r -> ~ In r (map raw_of (dropna table))).
Proof.
  intros Hdisk.
  split; [ now apply data_preparation_found | ].
  split; [ apply dropna_filter | ].
  split; [ | split ].
  - intros o Ho. apply row_has_na_false_iff.
    apply (in_map raw_of) in Ho. rewrite dropna_filter in Ho.
    apply filter_In in Ho. now apply negb_true_iff.
  - intros r Hr Hall. rewrite dropna_filter. apply filter_In.
    split; [ exact Hr | ]. apply negb_true_iff. now apply row_has_na_false_iff.
  - intros r Hr Hmiss Hin. rewrite dropna_filter in Hin.
    apply filter_In in Hin. destruct Hin as [_ Hin].
    apply negb_true_iff in Hin. now apply Hmiss, row_has_na_false_iff.
Qed.

Lemma data_preparation_drops_incomplete_rows_witness :
  disk table_world "table.csv" = Some raw_table /\
  data_preparation "table.csv" table_world =
    (Returned (Some [row "Abe" 2000 20000000 100 1000 10 20 5]), table_world).
Proof.
  split; [ reflexivity | ].
  exact (proj1 (data_preparation_drops_incomplete_rows
                  table_world "table.csv" raw_table eq_refl)).
Defined.

(** ** Feature engineering *)

Lemma feature_engineering_rowwise (df : list Observation) :
  feature_engineering df = map derive df.
Proof.
  unfold feature_engineering, column, series_mul.
  induction df as [|o df IH]; simpl; [ reflexivity | ].
  now rewrite IH.
Qed.

(** C10. Feature engineering keeps the number of rows, the eight raw columns
    and the row order, and the five new cells of a row are computed from the
    raw cells of that row alone: the row at an index of the result is [derive]
    of the row at that index of the input, whatever the other rows are. *)
Theorem feature_engineering_frame (df : list Observation) :
  List.length (feature_engineering df) = List.length df /\
  map obs (feature_engineering df) = df /\
  (forall i, nth_error (feature_engineering df) i = option_map derive (nth_error df i)) /\
  (forall df' i, nth_error df i = nth_error df' i ->
     nth_error (feature_engineering df) i = nth_error (feature_engineering df') i).
Proof.
  rewrite feature_engineering_rowwise.
  split; [ apply length_map | ].
  split; [ rewrite map_map; simpl; apply map_id | ].
  split.
  - intros i. apply nth_error_map.
  - intros df' i H. rewrite feature_engineering_rowwise, !nth_error_map.
    now rewrite H.
Qed.

Lemma feature_engineering_frame_witness :
  nth_error df_duplicate_key 0 = nth_error df_singleton 0 /\
  nth_error (feature_engineering df_duplicate_key) 0 =
    nth_error (feature_engineering df_singleton) 0.
Proof.
  split; [ reflexivity | ].
  apply (proj2 (proj2 (proj2 (feature_engineering_frame df_duplicate_key)))).
  reflexivity.
Defined.

(** C2, as the program has it. Feature engineering has no failing step: on a
    row whose GDP is zero or NaN it returns, and each of the three shares of
    that row is infinite or NaN. *)
Theorem feature_engineering_zero_gdp (df : list Observation) (i : nat) (o : Observation) :
  nth_error df i = Some o ->
  is_zero (GDP o) = true \/ is_nan (GDP o) = true ->
  exists out e,
    returns (feature_engineering df) = Returned out /\
    List.length out = List.length df /\
    nth_error out i = Some e /\ obs e = o /\
    is_finite (Agriculture_Share e) = false /\
    is_finite (Manufacturing_Share e) = false /\
    is_finite (Transport_Comm_Share e) = false.
Proof.
  intros Hi Hg.
  exists (feature_engineering df), (derive o).
  split; [ reflexivity | ].
  rewrite feature_engineering_rowwise.
  split; [ apply length_map | ].
  split; [ now rewrite nth_error_map, Hi | ].
  split; [ reflexivity | ].
  simpl. repeat split; now apply F64.share_not_finite.
Qed.

Lemma feature_engineering_zero_gdp_witness :
  exists out e,
    returns (feature_engineering df_zero_gdp) = Returned out /\
    List.length out = List.length df_zero_gdp /\
    nth_error out 0 = Some e /\
    obs e = row "Abe" 2000 20000000 0 1000 10 0 5 /\
    is_finite (Agriculture_Share e) = false /\
    is_finite (Manufacturing_Share e) = false /\
    is_finite (Transport_Comm_Share e) = false.
Proof.
  apply (feature_engineering_zero_gdp df_zero_gdp 0
           (row "Abe" 2000 20000000 0 1000 10 0 5)).
  - reflexivity.
  - left. reflexivity.
Defined.

(** C2, as the design document has it, fails: on a row with a zero GDP no
    DataError is raised, the enriched row comes back with infinite and NaN
    shares. *)
Lemma feature_engineering_zero_gdp_no_error :
  is_zero (GDP (row "Abe" 2000 20000000 0 1000 10 0 5)) = true /\
  returns (feature_engineering df_zero_gdp) <> Raised DataError /\
  feature_engineering df_zero_gdp =
    [ {| obs := row "Abe" 2000 20000000 0 1000 10 0 5;
         Income_Group := Low_income;
         GDP_per_capita := 0;
         Agriculture_Share := infinity;
         Manufacturing_Share := nan;
         Transport_Comm_Share := infinity |} ].
Proof.
  split; [ reflexivity | ].
  split; [ discriminate | ].
  reflexivity.
Qed.

(** ** The regression drivers *)

Lemma perform_regression_run (P : Packages) (df : list Enriched) (w : World) :
  perform_regression P df w =
    let w1 := to_stdout (nl ++ "--- OLS Regression Analysis Summary ---") w in
    match OLS P (column GDP_per_capita df) (add_constant P (regressors df)) with
    | Raised e => (Raised e, w1)
    | Returned m =>
        match OLS_fit P m with
        | Raised e => (Raised e, w1)
        | Returned res =>
            (Returned res,
             to_stdout (nl ++ "Regression summary saved to 'regression_summary.txt'.")
               (to_file "regression_summary.txt" (OLS_summary P res)
                  (to_stdout (OLS_summary P res) w1)))
        end
    end.
Proof.
  unfold perform_regression, bind, call, print, write_file, ret. simpl.
  destruct (OLS P _ _) as [m|e]; [ | reflexivity ].
  destruct (OLS_fit P m); reflexivity.
Qed.

(** C1, as the program has it. The OLS driver makes no check of the design
    matrix.  On every enriched dataset it fails exactly when the package's
    constructor or fit fails on the GDP-per-capita column and the
    constant-augmented share columns, with the package's exception; otherwise
    it returns the results the package gives and writes their summary. *)
Theorem perform_regression_outcome (P : Packages) (df : list Enriched) (w : World) :
  let y := column GDP_per_capita df in
  let X := add_constant P (regressors df) in
  (forall e, fst (perform_regression P df w) = Raised e <->
     OLS P y X = Raised e \/
     exists m, OLS P y X = Returned m /\ OLS_fit P m = Raised e) /\
  (forall res, fst (perform_regression P df w) = Returned res <->
     exists m, OLS P y X = Returned m /\ OLS_fit P m = Returned res) /\
  (forall res, fst (perform_regression P df w) = Returned res ->
     written (snd (perform_regression P df w)) =
       written w ++ [("regression_summary.txt"%string, OLS_summary P res)]).
Proof.
  intros y X. subst y X. rewrite perform_regression_run. cbv zeta.
  destruct (OLS P _ _) as [m|e0]; simpl.
  - destruct (OLS_fit P m) as [res0|e0] eqn:Efit; simpl.
    + split; [ | split ].
      * intros e. split; [ discriminate | ].
        intros [H|(m' & Hm & Hf)]; [ discriminate | ].
        injection Hm as <-. congruence.
      * intros res. split.
        -- intros H. exists m. split; [ reflexivity | congruence ].
        -- intros (m' & Hm & Hf). injection Hm as <-. congruence.
      * intros res H. injection H as <-. reflexivity.
    + split; [ | split ].
      * intros e. split.
        -- intros H. right. exists m. split; [ reflexivity | congruence ].
        -- intros [H|(m' & Hm & Hf)]; [ discriminate | ].
           injection Hm as <-. congruence.
      * intros res. split; [ discriminate | ].
        intros (m' & Hm & Hf). injection Hm as <-. congruence.
      * discriminate.
  - split; [ | split ].
    + intros e. split.
      * intros H. left. congruence.
      * intros [H|(m' & Hm & _)]; [ congruence | discriminate ].
    + intros res. split; [ discriminate | ].
      intros (m' & Hm & _). discriminate.
    + discriminate.
Qed.

Lemma perform_regression_outcome_witness :
  fst (perform_regression accepting_packages (feature_engineering df_order) empty_world)
    = Returned (column GDP_per_capita (feature_engineering df_order),
                map (cons 1%float) (regressors (feature_engineering df_order))) /\
  written (snd (perform_regression accepting_packages
                  (feature_engineering df_order) empty_world)) =
    [("regression_summary.txt"%string, "OLS Regression Results"%string)].
Proof.
  split; [ reflexivity | ].
  apply (proj2 (proj2 (perform_regression_outcome accepting_packages
                         (feature_engineering df_order) empty_world))
               (column GDP_per_capita (feature_engineering df_order),
                map (cons 1%float) (regressors (feature_engineering df_order)))).
  reflexivity.
Defined.

(** C1, as the design document has it, fails: with packages that accept the
    data, the driver returns results on a dataset whose manufacturing share is
    twice its agriculture share on every row, and raises nothing. *)
Lemma perform_regression_accepts_collinear_design :
  (forall r, In r (feature_engineering df_collinear) ->
     Manufacturing_Share r = (2 * Agriculture_Share r)%float) /\
  fst (perform_regression accepting_packages (feature_engineering df_collinear) empty_world)
    <> Raised DegenerateDesignError /\
  fst (perform_regression accepting_packages (feature_engineering df_collinear) empty_world)
    = Returned (column GDP_per_capita (feature_engineering df_collinear),
                map (cons 1%float) (regressors (feature_engineering df_collinear))).
Proof.
  split; [ | split ].
  - intros r Hr. vm_compute in Hr.
    repeat (destruct Hr as [Hr|Hr]; [ subst r; reflexivity | ]).
    contradiction.
  - discriminate.
  - reflexivity.
Qed.

Lemma perform_panel_analysis_run (P : Packages) (df : list Enriched) (w : World) :
  perform_panel_analysis P df w =
    let w1 := to_stdout (nl ++ "--- Fixed-Effects Panel Data Analysis Summary ---") w in
    match PanelOLS P (panel_dependent df) (panel_exog df) true with
    | Raised e => (Raised e, w1)
    | Returned m =>
        match PanelOLS_fit P m with
        | Raised e => (Raised e, w1)
        | Returned res =>
            (Returned tt,
             to_stdout (nl ++ "Panel regression summary saved to 'panel_regression_summary.txt'.")
               (to_file "panel_regression_summary.txt" (PanelResults_str P res)
                  (to_stdout (PanelResults_str P res) w1)))
        end
    end.
Proof.
  unfold perform_panel_analysis, bind, call, print, write_file, ret. simpl.
  destruct (PanelOLS P _ _ _) as [m|e]; [ | reflexivity ].
  destruct (PanelOLS_fit P m); reflexivity.
Qed.




(** ** The missing source file *)

(** C8. When the path names no file, the loader prints its message and gives
    back no dataset; [main] then returns at once: whatever the packages, the
    chart rendering and the lines waiting on the terminal, it has printed its
    banner and the loader's message and nothing else, and has written no
    file. *)
Theorem missing_file_stops_pipeline (w : World) (path : string) :
  disk w path = None ->
  data_preparation path w = (Returned None, to_stdout (not_found_message path) w) /\
  (path = file_path ->
   forall P visualize_data inputs,
     main P visualize_data inputs w =
       (Returned tt,
        {| disk := disk w;
           stdout := stdout w ++
                     ["--- Interactive Data Analysis and Visualization ---"%string;
                      not_found_message file_path];
           written := written w |})).
Proof.
  intros Hdisk.
  assert (Hprep : forall w', disk w' = disk w ->
            data_preparation path w' = (Returned None, to_stdout (not_found_message path) w')).
  { intros w' Hw'.
    unfold data_preparation, try_except_FileNotFoundError, bind, read_csv, print, ret.
    rewrite Hw', Hdisk. reflexivity. }
  split; [ now apply Hprep | ].
  intros -> P visualize_data inputs.
  unfold main, bind at 1. unfold print at 1.
  unfold bind. rewrite Hprep by reflexivity.
  unfold ret, to_stdout. simpl.
  rewrite <- app_assoc. reflexivity.
Qed.

Lemma missing_file_stops_pipeline_witness :
  disk empty_world file_path = None /\
  main accepting_packages (fun _ _ _ => ret tt) ["1"%string; "4"%string] empty_world =
    (Returned tt,
     {| disk := disk empty_world;
        stdout := ["--- Interactive Data Analysis and Visualization ---"%string;
                   not_found_message file_path];
        written := [] |}).
Proof.
  split; [ reflexivity | ].
  exact (proj2 (missing_file_stops_pipeline empty_world file_path eq_refl) eq_refl
               accepting_packages (fun _ _ _ => ret tt) ["1"%string; "4"%string]).
Defined.

(** ** The country selector *)

Section ListFacts.

Context {A : Type}.

Lemma filter_all (f : A -> bool) (l : list A) :
  (forall x, In x l -> f x = true) -> filter f l = l.
Proof.
  induction l as [|a l IH]; intros H; simpl; [ reflexivity | ].
  rewrite (H a (or_introl eq_refl)). f_equal. apply IH.
  intros x Hx. apply H. now right.
Qed.

Lemma In_firstn_incl (n : nat) (l : list A) (x : A) :
  In x (firstn n l) -> In x l.
Proof.
  revert l. induction n as [|n IH]; intros [|a l]; simpl; try contradiction.
  intros [->|H]; [ now left | right; now apply IH ].
Qed.

Lemma drop_duplicates_incl (eqb : A -> A -> bool) (l : list A) (x : A) :
  In x (drop_duplicates eqb l) -> In x l.
Proof.
  induction l as [|a l IH]; simpl; [ contradiction | ].
  intros [->|H]; [ now left | ].
  right. apply IH. apply filter_In in H. tauto.
Qed.

End ListFacts.

Lemma In_insert_key (c : string) (keys : list string) (x : string) :
  In x (insert_key c keys) <-> x = c \/ In x keys.
Proof.
  induction keys as [|d keys IH]; simpl; [ intuition | ].
  destruct (String_as_OT.compare_spec c d) as [E|E|E]; simpl.
  - change (c = d) in E. subst d. intuition.
  - intuition.
  - rewrite IH. intuition.
Qed.

Lemma insert_key_ascending (c : string) (keys : list string) :
  ascending keys -> ascending (insert_key c keys).
Proof.
  unfold ascending.
  induction keys as [|d keys IH]; intros H; simpl.
  - constructor; constructor.
  - apply StronglySorted_inv in H. destruct H as [Hs Hd].
    destruct (String_as_OT.compare_spec c d) as [E|E|E].
    + now constructor.
    + constructor; [ now constructor | ].
      constructor; [ exact E | ].
      rewrite Forall_forall in Hd |- *. intros x Hx.
      transitivity d; [ exact E | now apply Hd ].
    + constructor; [ now apply IH | ].
      rewrite Forall_forall in Hd |- *. intros x Hx.
      apply In_insert_key in Hx. destruct Hx as [->|Hx]; [ exact E | now apply Hd ].
Qed.

Lemma group_keys_ascending (cs : list string) : ascending (group_keys cs).
Proof.
  induction cs as [|c cs IH]; simpl.
  - constructor.
  - now apply insert_key_ascending.
Qed.

Lemma ascending_filter (f : string -> bool) (l : list string) :
  ascending l -> ascending (filter f l).
Proof.
  unfold ascending.
  induction l as [|a l IH]; intros H; simpl; [ constructor | ].
  apply StronglySorted_inv in H. destruct H as [Hs Ha].
  destruct (f a); [ | now apply IH ].
  constructor; [ now apply IH | ].
  rewrite Forall_forall in Ha |- *. intros x Hx.
  apply filter_In in Hx. now apply Ha.
Qed.

Lemma ascending_firstn (n : nat) (l : list string) :
  ascending l -> ascending (firstn n l).
Proof.
  unfold ascending. revert l.
  induction n as [|n IH]; intros [|a l] H; simpl; try constructor.
  - apply IH. now apply StronglySorted_inv in H.
  - apply StronglySorted_inv in H. destruct H as [_ Ha].
    rewrite Forall_forall in Ha |- *. intros x Hx.
    apply Ha. now apply In_firstn_incl in Hx.
Qed.

Lemma ascending_NoDup (l : list string) : ascending l -> NoDup l.
Proof.
  unfold ascending.
  induction l as [|a l IH]; intros H; constructor;
    apply StronglySorted_inv in H; destruct H as [Hs Ha].
  - intros Hin. rewrite Forall_forall in Ha.
    apply (StrictOrder_Irreflexive a). now apply Ha.
  - now apply IH.
Qed.

(** A run of one country in front of countries that differ from it leaves one
    entry for the run. *)
Lemma drop_duplicates_block (c : string) (blk rest : list string) :
  (forall x, In x blk -> x = c) -> ~ In c rest ->
  drop_duplicates String.eqb (blk ++ rest) =
    match blk with [] => [] | _ :: _ => [c] end ++ drop_duplicates String.eqb rest.
Proof.
  intros Hall Hc.
  assert (Hrest : filter (fun y => negb (String.eqb c y)) (drop_duplicates String.eqb rest)
                  = drop_duplicates String.eqb rest).
  { apply filter_all. intros y Hy. apply negb_true_iff, String.eqb_neq.
    intros ->. apply Hc. now apply drop_duplicates_incl in Hy. }
  induction blk as [|x blk IH]; simpl; [ reflexivity | ].
  assert (x = c) by (apply Hall; now left). subst x.
  f_equal. rewrite IH by (intros y Hy; apply Hall; now right).
  rewrite filter_app, Hrest.
  destruct blk; simpl; [ reflexivity | ].
  now rewrite String.eqb_refl.
Qed.

Lemma merge_row_In (cp : string * float) (R : list (string * IncomeGroup))
  (row : string * float * option IncomeGroup) :
  In row (merge_row cp R) -> fst row = cp.
Proof.
  unfold merge_row. destruct cp as [c p]. simpl.
  destruct (filter _ R) as [|m ms].
  - intros [<-|[]]. reflexivity.
  - simpl. intros [<-|H]; [ reflexivity | ].
    apply in_map_iff in H. destruct H as (cg & <- & _). reflexivity.
Qed.

Lemma merge_left_In (L : list (string * float)) (R : list (string * IncomeGroup))
  (row : string * float * option IncomeGroup) :
  In row (merge_left L R) -> In (fst row) L.
Proof.
  unfold merge_left. intros H. apply in_flat_map in H.
  destruct H as (cp & Hcp & Hrow).
  apply merge_row_In in Hrow. now rewrite Hrow.
Qed.

Lemma merge_row_countries (cp : string * float) (R : list (string * IncomeGroup))
  (g : IncomeGroup) :
  map (fun row => fst (fst row)) (filter (has_label g) (merge_row cp R)) =
  map (fun _ => fst cp)
      (filter (fun cg => IncomeGroup_eqb (snd cg) g)
              (filter (fun cg => String.eqb (fst cg) (fst cp)) R)).
Proof.
  unfold merge_row.
  destruct (filter (fun cg => String.eqb (fst cg) (fst cp)) R) as [|m ms];
    [ reflexivity | ].
  generalize (m :: ms) as l. intros l.
  induction l as [|a l IH]; simpl; [ reflexivity | ].
  unfold has_label at 1. simpl.
  destruct (IncomeGroup_eqb (snd a) g); simpl; now rewrite IH.
Qed.

Lemma matches_existsb (c : string) (g : IncomeGroup) (R : list (string * IncomeGroup)) :
  match map (fun _ : string * IncomeGroup => c)
            (filter (fun cg => IncomeGroup_eqb (snd cg) g)
                    (filter (fun cg => String.eqb (fst cg) c) R)) with
  | [] => []
  | _ :: _ => [c]
  end =
  if existsb (fun cg => String.eqb (fst cg) c && IncomeGroup_eqb (snd cg) g) R
  then [c] else [].
Proof.
  induction R as [|a R IH]; simpl; [ reflexivity | ].
  destruct (String.eqb (fst a) c); simpl; [ | exact IH ].
  destruct (IncomeGroup_eqb (snd a) g); simpl; [ reflexivity | exact IH ].
Qed.

(** The countries of one group in the merged table: the countries of the left
    table that some row of the right table gives that label, in the order of
    the left table. *)
Lemma group_of_merge (L : list (string * float)) (R : list (string * IncomeGroup))
  (g : IncomeGroup) :
  NoDup (map fst L) ->
  drop_duplicates String.eqb
    (map (fun row => fst (fst row)) (filter (has_label g) (merge_left L R))) =
  filter (fun c => existsb (fun cg => String.eqb (fst cg) c && IncomeGroup_eqb (snd cg) g) R)
         (map fst L).
Proof.
  induction L as [|cp L IH]; intros Hnd; [ reflexivity | ].
  simpl in Hnd. apply NoDup_cons_iff in Hnd. destruct Hnd as [Hcp Hnd].
  change (merge_left (cp :: L) R) with (merge_row cp R ++ merge_left L R).
  rewrite filter_app, map_app.
  rewrite (drop_duplicates_block (fst cp)).
  - rewrite merge_row_countries, matches_existsb, (IH Hnd). simpl.
    destruct (existsb _ R); reflexivity.
  - intros x Hx. rewrite merge_row_countries in Hx.
    apply in_map_iff in Hx. destruct Hx as (_ & <- & _). reflexivity.
  - intros Hin. apply in_map_iff in Hin. destruct Hin as (row & Hrow & Hin).
    apply filter_In in Hin. destruct Hin as [Hin _].
    apply merge_left_In in Hin. apply Hcp.
    rewrite <- Hrow. now apply in_map.
Qed.

Lemma comparable_keys (P : Packages) (df : list Enriched) :
  map fst (comparable_countries_df P df) =
  filter (fun c => in_band (mean P (population_of df c)))
         (group_keys (map country df)).
Proof.
  unfold comparable_countries_df, avg_population.
  generalize (group_keys (map country df)) as keys. intros keys.
  induction keys as [|c keys IH]; simpl; [ reflexivity | ].
  destruct (in_band _); simpl; now rewrite IH.
Qed.

(** The countries of a group, in closed form. *)
Lemma group_countries_closed_form (P : Packages) (df : list Enriched) (g : IncomeGroup) :
  group_countries P df g =
  filter (fun c => existsb (fun cg => String.eqb (fst cg) c && IncomeGroup_eqb (snd cg) g)
                           (country_income_map df))
         (filter (fun c => in_band (mean P (population_of df c)))
                 (group_keys (map country df))).
Proof.
  unfold group_countries, merged.
  rewrite group_of_merge.
  - now rewrite comparable_keys.
  - rewrite comparable_keys.
    apply ascending_NoDup, ascending_filter, group_keys_ascending.
Qed.

Lemma IncomeGroup_eqb_eq (g h : IncomeGroup) : IncomeGroup_eqb g h = true -> g = h.
Proof. destruct g, h; simpl; congruence. Qed.

(** What membership in the countries of a group says. *)
Lemma group_countries_In (P : Packages) (df : list Enriched) (g : IncomeGroup) (c : string) :
  In c (group_countries P df g) ->
  in_band (mean P (population_of df c)) = true /\
  exists r, In r df /\ country r = c /\ Income_Group r = g.
Proof.
  rewrite group_countries_closed_form. intros H.
  apply filter_In in H. destruct H as [H Hlab].
  apply filter_In in H. destruct H as [_ Hband].
  split; [ exact Hband | ].
  apply existsb_exists in Hlab. destruct Hlab as (cg & Hcg & Heq).
  apply andb_true_iff in Heq. destruct Heq as [Hc Hg].
  apply String.eqb_eq in Hc. apply IncomeGroup_eqb_eq in Hg.
  unfold country_income_map in Hcg. apply drop_duplicates_incl in Hcg.
  apply in_map_iff in Hcg. destruct Hcg as (r & Hr & Hin).
  exists r. subst cg. simpl in *. auto.
Qed.

Lemma group_countries_ascending (P : Packages) (df : list Enriched) (g : IncomeGroup) :
  ascending (group_countries P df g).
Proof.
  rewrite group_countries_closed_form.
  apply ascending_filter, ascending_filter, group_keys_ascending.
Qed.

Lemma selected_countries_concat (P : Packages) (df : list Enriched) :
  selected_countries P df =
  group_contribution P df High_income ++
  group_contribution P df Upper_middle_income ++
  group_contribution P df Lower_middle_income ++
  group_contribution P df Low_income.
Proof.
  assert (Hext : forall (sel gc : list string),
            (if (0 <? List.length gc)%nat then sel ++ firstn 3 gc else sel)
            = sel ++ firstn 3 gc).
  { intros sel [|a gc]; simpl; [ now rewrite app_nil_r | reflexivity ]. }
  unfold selected_countries, groups, group_contribution.
  cbn [fold_left]. cbv zeta. rewrite !Hext.
  rewrite app_nil_l, <- !app_assoc. reflexivity.
Qed.

Lemma group_contribution_In (P : Packages) (df : list Enriched) (g : IncomeGroup) (c : string) :
  In c (group_contribution P df g) ->
  in_band (mean P (population_of df c)) = true /\ In g (labels_of df c).
Proof.
  unfold group_contribution. intros H. apply In_firstn_incl in H.
  apply group_countries_In in H. destruct H as [Hband (r & Hr & Hc & Hg)].
  split; [ exact Hband | ].
  unfold labels_of. rewrite <- Hg. apply in_map, filter_In.
  split; [ exact Hr | ]. now apply String.eqb_eq.
Qed.

Lemma selected_countries_In (P : Packages) (df : list Enriched) (c : string) :
  In c (selected_countries P df) -> exists g, In c (group_contribution P df g).
Proof.
  rewrite selected_countries_concat. rewrite !in_app_iff.
  intros [H|[H|[H|H]]]; eauto.
Qed.

Lemma labels_of_single (df : list Enriched) (c : string) (g h : IncomeGroup) :
  single_label df -> In g (labels_of df c) -> In h (labels_of df c) -> g = h.
Proof.
  unfold labels_of. intros Hs Hg Hh.
  apply in_map_iff in Hg. destruct Hg as (r1 & <- & H1).
  apply in_map_iff in Hh. destruct Hh as (r2 & <- & H2).
  apply filter_In in H1. destruct H1 as [H1 E1].
  apply filter_In in H2. destruct H2 as [H2 E2].
  apply String.eqb_eq in E1. apply String.eqb_eq in E2.
  apply Hs; congruence.
Qed.

Lemma group_contribution_ascending (P : Packages) (df : list Enriched) (g : IncomeGroup) :
  ascending (group_contribution P df g).
Proof.
  unfold group_contribution. apply ascending_firstn, group_countries_ascending.
Qed.

Lemma group_contribution_disjoint (P : Packages) (df : list Enriched)
  (g h : IncomeGroup) (c : string) :
  single_label df -> g <> h ->
  In c (group_contribution P df g) -> ~ In c (group_contribution P df h).
Proof.
  intros Hs Hgh Hg Hh.
  apply group_contribution_In in Hg. apply group_contribution_In in Hh.
  apply Hgh. apply (labels_of_single df c); tauto.
Qed.

(** C5, as the program has it. The selector never fails.  Its list is what
    the four groups add, High first, then UpperMiddle, LowerMiddle and Low;
    a group adds at most three countries, in ascending order of their names
    (the order of the grouped means, not the row order of the dataset), each
    with a mean population in [10,000,000; 50,000,000] and with that group's
    label on one of its rows; a group with no such country adds nothing.  The
    list has at most 12 entries, and no country twice when every country has
    one label over all its rows. *)
Theorem selected_countries_shape (P : Packages) (df : list Enriched) (w : World) :
  fst (get_comparable_countries P df w) = Returned (selected_countries P df) /\
  selected_countries P df =
    group_contribution P df High_income ++
    group_contribution P df Upper_middle_income ++
    group_contribution P df Lower_middle_income ++
    group_contribution P df Low_income /\
  (forall g,
     List.length (group_contribution P df g) <= 3 /\
     ascending (group_contribution P df g) /\
     forall c, In c (group_contribution P df g) ->
               in_band (mean P (population_of df c)) = true /\
               In g (labels_of df c)) /\
  (forall c, In c (selected_countries P df) ->
             in_band (mean P (population_of df c)) = true) /\
  List.length (selected_countries P df) <= 12 /\
  (single_label df -> NoDup (selected_countries P df)).
Proof.
  split; [ reflexivity | ].
  split; [ apply selected_countries_concat | ].
  split; [ | split; [ | split ] ].
  - intros g. split; [ apply firstn_le_length | ].
    split; [ apply group_contribution_ascending | ].
    intros c. apply group_contribution_In.
  - intros c Hc. apply selected_countries_In in Hc. destruct Hc as [g Hg].
    now apply group_contribution_In in Hg.
  - rewrite selected_countries_concat, !length_app.
    pose proof (firstn_le_length 3 (group_countries P df High_income)).
    pose proof (firstn_le_length 3 (group_countries P df Upper_middle_income)).
    pose proof (firstn_le_length 3 (group_countries P df Lower_middle_income)).
    pose proof (firstn_le_length 3 (group_countries P df Low_income)).
    unfold group_contribution. lia.
  - intros Hs. rewrite selected_countries_concat.
    repeat apply NoDup_app;
      try (apply ascending_NoDup, group_contribution_ascending).
    all: intros c Hc Hin; rewrite ?in_app_iff in Hin;
      repeat (destruct Hin as [Hin|Hin]);
      revert Hin;
      match type of Hc with
      | In _ (group_contribution _ _ ?g) =>
          apply (group_contribution_disjoint P df g _ c Hs); [ discriminate | exact Hc ]
      end.
Qed.

Lemma df_order_single_label : single_label (feature_engineering df_order).
Proof.
  intros r1 r2 H1 H2 _. vm_compute in H1, H2.
  destruct H1 as [<-|[<-|[]]]; destruct H2 as [<-|[<-|[]]]; reflexivity.
Qed.

Lemma selected_countries_shape_witness :
  single_label (feature_engineering df_order) /\
  NoDup (selected_countries accepting_packages (feature_engineering df_order)).
Proof.
  split; [ exact df_order_single_label | ].
  apply (selected_countries_shape accepting_packages
           (feature_engineering df_order) empty_world).
  exact df_order_single_label.
Defined.

(** C5, as the design document has it, fails: Zed comes before Abe in the
    dataset, both are high-income countries of comparable population with one
    label each, and the High group adds Abe before Zed. *)
Lemma selected_countries_not_in_row_order :
  single_label (feature_engineering df_order) /\
  first_seen (feature_engineering df_order) = ["Zed"; "Abe"]%string /\
  selected_countries accepting_packages (feature_engineering df_order)
    = ["Abe"; "Zed"]%string /\
  group_contribution accepting_packages (feature_engineering df_order) High_income
    = ["Abe"; "Zed"]%string /\
  in_order_of
    (group_contribution accepting_packages (feature_engineering df_order) High_income)
    (first_seen (feature_engineering df_order)) = false.
Proof.
  split; [ exact df_order_single_label | ].
  repeat split; reflexivity.
Qed.

(** C4: the code at the failing input. Atlantis is Low in 2000 and LowerMiddle
    in 2001; the de-duplicated label table keeps both rows, and the selection
    lists Atlantis under both groups instead of once under its first label. *)
Theorem country_with_two_labels_selected_twice :
  first_label (feature_engineering df_two_labels) "Atlantis" = Some Low_income /\
  country_income_map (feature_engineering df_two_labels)
    = [("Atlantis"%string, Low_income); ("Atlantis"%string, Lower_middle_income)] /\
  selected_countries accepting_packages (feature_engineering df_two_labels)
    = ["Atlantis"; "Atlantis"]%string /\
  ~ NoDup (selected_countries accepting_packages (feature_engineering df_two_labels)).
Proof.
  split; [ reflexivity | ].
  split; [ reflexivity | ].
  split; [ reflexivity | ].
  intros H. change (NoDup ["Atlantis"; "Atlantis"]%string) in H.
  apply NoDup_cons_iff in H. destruct H as [H _]. apply H. now left.
Qed.

(** * Part III: further properties of the code *)

(** ** The tables the selector builds *)

Section DropDuplicates.

Context {A : Type} (eqb : A -> A -> bool).
Hypothesis eqb_eq : forall x y, eqb x y = true -> x = y.
Hypothesis eqb_refl : forall x, eqb x x = true.

Lemma drop_duplicates_complete (l : list A) (x : A) :
  In x l -> In x (drop_duplicates eqb l).
Proof.
  induction l as [|a l IH]; simpl; [ contradiction | ].
  intros [->|H]; [ now left | ].
  destruct (eqb a x) eqn:E.
  - left. now apply eqb_eq.
  - right. apply filter_In. split; [ now apply IH | now rewrite E ].
Qed.

Lemma drop_duplicates_NoDup (l : list A) : NoDup (drop_duplicates eqb l).
Proof.
  induction l as [|a l IH]; simpl; constructor.
  - intros H. apply filter_In in H. destruct H as [_ H].
    now rewrite eqb_refl in H.
  - now apply NoDup_filter.
Qed.

End DropDuplicates.

Lemma label_eqb_eq (a b : string * IncomeGroup) : label_eqb a b = true -> a = b.
Proof.
  destruct a as [c g], b as [d h]. unfold label_eqb. simpl.
  intros H. apply andb_true_iff in H. destruct H as [Hc Hg].
  apply String.eqb_eq in Hc. apply IncomeGroup_eqb_eq in Hg. congruence.
Qed.

Lemma IncomeGroup_eqb_refl (g : IncomeGroup) : IncomeGroup_eqb g g = true.
Proof. destruct g; reflexivity. Qed.

Lemma label_eqb_refl (a : string * IncomeGroup) : label_eqb a a = true.
Proof.
  unfold label_eqb. now rewrite String.eqb_refl, IncomeGroup_eqb_refl.
Qed.

Lemma In_group_keys (cs : list string) (x : string) :
  In x (group_keys cs) <-> In x cs.
Proof.
  induction cs as [|c cs IH]; simpl; [ tauto | ].
  rewrite In_insert_key, IH. intuition.
Qed.

(** X3. The table of mean populations has one row per country of the
    dataset, in ascending order of the country names, and the value of a row
    is the mean of the Population cells of that country's rows, in row
    order. *)
Theorem avg_population_rows (P : Packages) (df : list Enriched) :
  ascending (map fst (avg_population P df)) /\
  NoDup (map fst (avg_population P df)) /\
  (forall c, In c (map fst (avg_population P df)) <-> exists r, In r df /\ country r = c) /\
  (forall c p, In (c, p) (avg_population P df) -> p = mean P (population_of df c)).
Proof.
  assert (Hkeys : map fst (avg_population P df) = group_keys (map country df)).
  { unfold avg_population. rewrite map_map. simpl. apply map_id. }
  rewrite Hkeys.
  split; [ apply group_keys_ascending | ].
  split; [ apply ascending_NoDup, group_keys_ascending | ].
  split.
  - intros c. rewrite In_group_keys, in_map_iff.
    split; intros (r & H1 & H2); exists r; tauto.
  - intros c p H. unfold avg_population in H.
    apply in_map_iff in H. destruct H as (c' & E & _). congruence.
Qed.

(** X4. The table of income labels lists the (Country, Income_Group) pairs
    that occur on a row of the dataset, each pair once: a country has one row
    in it per label it carries. *)
Theorem country_income_map_pairs (df : list Enriched) :
  NoDup (country_income_map df) /\
  (forall c g, In (c, g) (country_income_map df) <->
               exists r, In r df /\ country r = c /\ Income_Group r = g).
Proof.
  split; [ apply drop_duplicates_NoDup, label_eqb_refl | ].
  intros c g. unfold country_income_map. split.
  - intros H. apply drop_duplicates_incl in H.
    apply in_map_iff in H. destruct H as (r & E & Hr).
    exists r. split; [ exact Hr | ]. split; congruence.
  - intros (r & Hr & <- & <-).
    apply (drop_duplicates_complete label_eqb label_eqb_eq).
    exact (in_map (fun r => (country r, Income_Group r)) df r Hr).
Qed.

(** ** Which countries the selector returns *)

Lemma group_countries_qualifies (P : Packages) (df : list Enriched)
  (g : IncomeGroup) (c : string) :
  in_band (mean P (population_of df c)) = true ->
  (exists r, In r df /\ country r = c /\ Income_Group r = g) ->
  In c (group_countries P df g).
Proof.
  intros Hband (r & Hr & Hc & Hg).
  rewrite group_countries_closed_form.
  apply filter_In. split.
  - apply filter_In. split; [ | exact Hband ].
    apply In_group_keys. rewrite <- Hc. now apply in_map.
  - apply existsb_exists. exists (c, g). split.
    + unfold country_income_map.
      apply (drop_duplicates_complete label_eqb label_eqb_eq).
      rewrite <- Hc, <- Hg.
      exact (in_map (fun r => (country r, Income_Group r)) df r Hr).
    + simpl. now rewrite String.eqb_refl, IncomeGroup_eqb_refl.
Qed.

(** X1. Before the cut to three, the countries of a group are exactly the
    countries of the dataset whose mean population is in
    [10,000,000; 50,000,000] and that carry the group's label on some row. *)
Theorem group_countries_iff (P : Packages) (df : list Enriched)
  (g : IncomeGroup) (c : string) :
  In c (group_countries P df g) <->
  in_band (mean P (population_of df c)) = true /\
  exists r, In r df /\ country r = c /\ Income_Group r = g.
Proof.
  split.
  - apply group_countries_In.
  - intros [Hband Hrow]. now apply group_countries_qualifies.
Qed.

Lemma firstn_3_nil {A : Type} (l : list A) : firstn 3 l = [] -> l = [].
Proof. destruct l; [ reflexivity | discriminate ]. Qed.

Lemma group_contribution_nil (P : Packages) (df : list Enriched) (g : IncomeGroup) :
  selected_countries P df = [] -> group_countries P df g = [].
Proof.
  rewrite selected_countries_concat. intros H.
  apply app_eq_nil in H. destruct H as [H1 H].
  apply app_eq_nil in H. destruct H as [H2 H].
  apply app_eq_nil in H. destruct H as [H3 H4].
  destruct g; now apply firstn_3_nil.
Qed.

(** X2. The selection is empty exactly when no country of the dataset has a
    mean population in the band. *)
Theorem selected_countries_empty_iff (P : Packages) (df : list Enriched) :
  selected_countries P df = [] <->
  forall r, In r df -> in_band (mean P (population_of df (country r))) = false.
Proof.
  split.
  - intros Hsel r Hr.
    destruct (in_band (mean P (population_of df (country r)))) eqn:E;
      [ exfalso | reflexivity ].
    assert (Hin : In (country r) (group_countries P df (Income_Group r))).
    { apply group_countries_qualifies; [ exact E | ]. exists r. auto. }
    rewrite (group_contribution_nil P df (Income_Group r) Hsel) in Hin.
    contradiction.
  - intros Hnone.
    assert (Hnil : forall g, group_countries P df g = []).
    { intros g. destruct (group_countries P df g) as [|c l] eqn:E; [ reflexivity | ].
      assert (Hc : In c (group_countries P df g)) by (rewrite E; now left).
      apply group_countries_In in Hc. destruct Hc as [Hband (r & Hr & Hc & _)].
      rewrite <- Hc, (Hnone r Hr) in Hband. discriminate. }
    rewrite selected_countries_concat. unfold group_contribution.
    now rewrite !Hnil.
Qed.

(** X5. A qualifying country is returned whenever at most three countries
    qualify for its group: only a fourth and later country of a group, in
    name order, is left out. *)
Theorem qualifying_country_selected (P : Packages) (df : list Enriched)
  (g : IncomeGroup) (c : string) :
  List.length (group_countries P df g) <= 3 ->
  in_band (mean P (population_of df c)) = true ->
  (exists r, In r df /\ country r = c /\ Income_Group r = g) ->
  In c (selected_countries P df).
Proof.
  intros Hlen Hband Hrow.
  pose proof (group_countries_qualifies P df g c Hband Hrow) as Hin.
  rewrite selected_countries_concat. unfold group_contribution.
  rewrite !in_app_iff.
  rewrite <- (firstn_all2 (group_countries P df g) Hlen) in Hin.
  destruct g; tauto.
Qed.

Lemma qualifying_country_selected_witness :
  In "Zed"%string (selected_countries accepting_packages (feature_engineering df_order)).
Proof.
  apply (qualifying_country_selected accepting_packages
           (feature_engineering df_order) High_income "Zed").
  - vm_compute. lia.
  - reflexivity.
  - eexists. split; [ left; reflexivity | ]. split; reflexivity.
Defined.

(** ** Cleaning, again *)

Lemma observation_of_raw_of (o : Observation) : observation_of (raw_of o) = Some o.
Proof. destruct o; reflexivity. Qed.

Lemma dropna_rows_complete (table : list RawRow) (o : Observation) :
  In o (dropna table) -> row_has_na (raw_of o) = false.
Proof.
  intros H. apply (in_map raw_of) in H. rewrite dropna_filter in H.
  apply filter_In in H. now apply negb_true_iff.
Qed.

Lemma dropna_raw_of (os : list Observation) :
  (forall o, In o os -> row_has_na (raw_of o) = false) ->
  dropna (map raw_of os) = os.
Proof.
  induction os as [|o os IH]; intros H; [ reflexivity | ].
  cbn [map dropna].
  rewrite (H o (or_introl eq_refl)), observation_of_raw_of.
  f_equal. apply IH. intros o' Ho'. apply H. now right.
Qed.

(** X6. Every row of the table is either kept or counted among the rows with
    an absent cell: the number of rows dropped is the number of rows with a
    gap. *)
Theorem dropna_row_count (table : list RawRow) :
  List.length (dropna table) + List.length (filter row_has_na table)
  = List.length table.
Proof.
  induction table as [|r table IH]; [ reflexivity | ].
  cbn [dropna filter]. destruct (row_has_na r) eqn:E.
  - cbn [List.length]. lia.
  - destruct (observation_of_complete r E) as (o & Ho & _). rewrite Ho.
    cbn [List.length]. lia.
Qed.

(** X7. Cleaning is idempotent: the rows of a cleaned table, read back as a
    raw table, all pass the cleaning and come back unchanged, in order. *)
Theorem dropna_idempotent (table : list RawRow) :
  dropna (map raw_of (dropna table)) = dropna table.
Proof.
  apply dropna_raw_of. intros o. apply dropna_rows_complete.
Qed.

(** ** Feature engineering at the edges *)

Lemma leb_nan (x c : float) : is_nan x = true -> (x <=? c)%float = false.
Proof.
  unfold is_nan. rewrite FloatAxioms.eqb_spec, FloatAxioms.leb_spec.
  intros H. apply negb_true_iff in H.
  now rewrite (F64.SFeqb_self_false _ H).
Qed.

(** X8. A missing (NaN) GNI is classified High income: every comparison
    fails and the last branch is taken. *)
Theorem classify_income_group_nan (gni : float) :
  is_nan gni = true -> classify_income_group gni = High_income.
Proof.
  intros H. unfold classify_income_group. now rewrite !leb_nan.
Qed.

Lemma classify_income_group_nan_witness :
  classify_income_group nan = High_income.
Proof. apply (classify_income_group_nan nan). reflexivity. Defined.

Lemma classify_high_iff (gni : float) :
  is_nan gni = false ->
  (classify_income_group gni = High_income <-> (14005 <? gni)%float = true).
Proof.
  intros Hnum.
  rewrite (F64.ltb_negb_leb gni) by (assumption || reflexivity).
  pose proof (F64.leb_1145_4515 gni) as H1.
  pose proof (F64.leb_4515_14005 gni) as H2.
  unfold classify_income_group.
  destruct (gni <=? 1145)%float, (gni <=? 4515)%float, (gni <=? 14005)%float;
    simpl; split; intros; try congruence;
    try (specialize (H1 eq_refl)); try (specialize (H2 eq_refl)); congruence.
Qed.

(** X9. In the pipeline the fallback cannot happen: a row of the enriched
    table built from a cleaned table is labelled High income exactly when its
    GNI is above 14005. *)
Theorem pipeline_high_income (table : list RawRow) (e : Enriched) :
  In e (feature_engineering (dropna table)) ->
  (Income_Group e = High_income <-> (14005 <? Per_capita_GNI (obs e))%float = true).
Proof.
  rewrite feature_engineering_rowwise. intros H.
  apply in_map_iff in H. destruct H as (o & <- & Ho).
  apply dropna_rows_complete, row_has_na_false_iff in Ho.
  destruct Ho as (_ & _ & _ & _ & Hgni & _).
  simpl. now apply classify_high_iff.
Qed.

Lemma pipeline_high_income_witness :
  Income_Group (derive (row "Abe" 2000 20000000 100 1000 10 20 5)) = High_income <->
  (14005 <? 1000)%float = true.
Proof.
  apply (pipeline_high_income raw_table
           (derive (row "Abe" 2000 20000000 100 1000 10 20 5))).
  left. reflexivity.
Defined.

Lemma quotient_not_finite (x g : float) :
  PrimFloat.is_zero g = true \/ is_nan g = true -> is_finite (x / g)%float = false.
Proof.
  intros Hg. rewrite F64.is_finite_spec, FloatAxioms.div_spec.
  unfold SF64div. destruct Hg as [Hz|Hn].
  - unfold PrimFloat.is_zero in Hz. rewrite FloatAxioms.eqb_spec in Hz.
    change (Prim2SF zero) with (S754_zero false) in Hz.
    destruct (F64.SFeqb_zero _ Hz) as [s Hs]. rewrite Hs.
    destruct (Prim2SF x); reflexivity.
  - unfold is_nan in Hn. rewrite FloatAxioms.eqb_spec in Hn.
    apply negb_true_iff in Hn. rewrite (F64.SFeqb_self_false _ Hn).
    destruct (Prim2SF x); reflexivity.
Qed.

(** X10. No failure on a zero population either: on a row whose Population is
    zero or NaN the GDP per capita comes back infinite or NaN. *)
Theorem feature_engineering_zero_population
  (df : list Observation) (i : nat) (o : Observation) :
  nth_error df i = Some o ->
  PrimFloat.is_zero (Population o) = true \/ is_nan (Population o) = true ->
  exists e, nth_error (feature_engineering df) i = Some e /\ obs e = o /\
            is_finite (GDP_per_capita e) = false.
Proof.
  intros Hi Hp. exists (derive o).
  rewrite feature_engineering_rowwise, nth_error_map, Hi.
  split; [ reflexivity | ]. split; [ reflexivity | ].
  simpl. now apply quotient_not_finite.
Qed.

Lemma feature_engineering_zero_population_witness :
  exists e, nth_error (feature_engineering df_zero_population) 0 = Some e /\
            obs e = row "Abe" 2000 0 100 1000 10 20 5 /\
            is_finite (GDP_per_capita e) = false.
Proof.
  apply (feature_engineering_zero_population df_zero_population 0
           (row "Abe" 2000 0 100 1000 10 20 5)).
  - reflexivity.
  - left. reflexivity.
Defined.

Lemma share_of_zero (a g : float) :
  PrimFloat.is_zero a = true -> is_finite g = true -> PrimFloat.is_zero g = false ->
  PrimFloat.is_zero (a / g * 100)%float = true.
Proof.
  unfold PrimFloat.is_zero. rewrite F64.is_finite_spec.
  rewrite !FloatAxioms.eqb_spec, FloatAxioms.mul_spec, FloatAxioms.div_spec.
  change (Prim2SF zero) with (S754_zero false).
  change (Prim2SF 100) with (S754_finite false 7036874417766400 (-46)).
  unfold SF64mul, SF64div.
  intros Ha Hfin Hnz.
  destruct (F64.SFeqb_zero _ Ha) as [s Hs]. rewrite Hs.
  destruct (Prim2SF g) as [sg|sg| |sg mg eg]; try discriminate.
  reflexivity.
Qed.

(** X11. A sector with no output has a zero share: on a row whose GDP is a
    finite number other than zero, a zero Agriculture, Manufacturing or
    Transport_Comm value gives a zero share of that sector. *)
Theorem feature_engineering_zero_sector
  (df : list Observation) (i : nat) (o : Observation) :
  nth_error df i = Some o ->
  is_finite (GDP o) = true -> PrimFloat.is_zero (GDP o) = false ->
  exists e, nth_error (feature_engineering df) i = Some e /\ obs e = o /\
    (PrimFloat.is_zero (Agriculture o) = true ->
     PrimFloat.is_zero (Agriculture_Share e) = true) /\
    (PrimFloat.is_zero (Manufacturing o) = true ->
     PrimFloat.is_zero (Manufacturing_Share e) = true) /\
    (PrimFloat.is_zero (Transport_Comm o) = true ->
     PrimFloat.is_zero (Transport_Comm_Share e) = true).
Proof.
  intros Hi Hfin Hnz. exists (derive o).
  rewrite feature_engineering_rowwise, nth_error_map, Hi.
  split; [ reflexivity | ]. split; [ reflexivity | ].
  simpl. repeat split; intros Hz; now apply share_of_zero.
Qed.

Lemma feature_engineering_zero_sector_witness :
  exists e, nth_error (feature_engineering df_no_agriculture) 0 = Some e /\
            obs e = row "Abe" 2000 20000000 100 1000 0 20 5 /\
            PrimFloat.is_zero (Agriculture_Share e) = true.
Proof.
  destruct (feature_engineering_zero_sector df_no_agriculture 0
              (row "Abe" 2000 20000000 100 1000 0 20 5) eq_refl eq_refl eq_refl)
    as (e & He & Ho & Ha & _).
  exists e. split; [ exact He | ]. split; [ exact Ho | ].
  apply Ha. reflexivity.
Defined.

(** ** The drivers, failing *)

(** X12. A failed fit leaves no artifact: when either driver fails, it has
    printed its header line and nothing else, and has written no file. *)
Theorem failed_fit_leaves_no_artifact (P : Packages) (df : list Enriched) (w : World) :
  (forall e, fst (perform_regression P df w) = Raised e ->
     snd (perform_regression P df w)
     = to_stdout (nl ++ "--- OLS Regression Analysis Summary ---") w) /\
  (forall e, fst (perform_panel_analysis P df w) = Raised e ->
     snd (perform_panel_analysis P df w)
     = to_stdout (nl ++ "--- Fixed-Effects Panel Data Analysis Summary ---") w).
Proof.
  split; intros e.
  - rewrite perform_regression_run. cbv zeta.
    destruct (OLS P _ _) as [m|e0]; [ | reflexivity ].
    destruct (OLS_fit P m); [ discriminate | reflexivity ].
  - rewrite perform_panel_analysis_run. cbv zeta.
    destruct (PanelOLS P _ _ _) as [m|e0]; [ | reflexivity ].
    destruct (PanelOLS_fit P m); [ discriminate | reflexivity ].
Qed.

Lemma failed_fit_leaves_no_artifact_witness :
  written (snd (perform_regression rejecting_packages
                  (feature_engineering df_collinear) empty_world)) = [] /\
  written (snd (perform_panel_analysis rejecting_packages
                  (feature_engineering df_collinear) empty_world)) = [].
Proof.
  destruct (failed_fit_leaves_no_artifact rejecting_packages
              (feature_engineering df_collinear) empty_world) as [Hreg Hpan].
  split.
  - rewrite (Hreg (Exn "LinAlgError") eq_refl). reflexivity.
  - rewrite (Hpan (Exn "ValueError") eq_refl). reflexivity.
Defined.

(** ** The menu *)

(** The world after the menu and the prompt have been shown. *)
Lemma menu_loop_nil (P : Packages)
  (visualize : list Enriched -> string -> list string -> M unit)
  (df : list Enriched) (sel : list string) (w : World) :
  menu_loop P visualize df sel [] w
  = (Raised EOFError, to_stdout choice_prompt (snd (print_menu w))).
Proof. reflexivity. Qed.

Lemma menu_loop_cons (P : Packages)
  (visualize : list Enriched -> string -> list string -> M unit)
  (df : list Enriched) (sel : list string) (choice : string) (rest : list string)
  (w : World) :
  menu_loop P visualize df sel (choice :: rest) w
  = (if String.eqb choice "1" then
       bind (perform_regression P df) (fun _ => menu_loop P visualize df sel rest)
     else if String.eqb choice "2" then
       bind (print vis_prompt)
            (fun _ => match rest with
                      | [] => raise EOFError
                      | vis_choice :: rest' =>
                          bind (visualize df vis_choice sel)
                               (fun _ => menu_loop P visualize df sel rest')
                      end)
     else if String.eqb choice "3" then
       bind (perform_panel_analysis P df) (fun _ => menu_loop P visualize df sel rest)
     else if String.eqb choice "4" then
       print "Exiting script."
     else
       bind (print "Invalid choice. Please enter 1, 2, 3, or 4.")
            (fun _ => menu_loop P visualize df sel rest))
      (to_stdout choice_prompt (snd (print_menu w))).
Proof. reflexivity. Qed.

Lemma menu_loop_idle (P : Packages)
  (visualize : list Enriched -> string -> list string -> M unit)
  (df : list Enriched) (sel : list string) (inputs : list string) :
  forallb idle_choice inputs = true ->
  forall w,
    fst (menu_loop P visualize df sel inputs w)
    = (if existsb (String.eqb "4") inputs then Returned tt else Raised EOFError) /\
    written (snd (menu_loop P visualize df sel inputs w)) = written w.
Proof.
  induction inputs as [|choice rest IH]; intros Hidle w.
  - rewrite menu_loop_nil. split; reflexivity.
  - cbn [forallb] in Hidle. apply andb_true_iff in Hidle.
    destruct Hidle as [Hc Hrest].
    unfold idle_choice in Hc. rewrite !andb_true_iff, !negb_true_iff in Hc.
    destruct Hc as [[H1 H2] H3].
    rewrite menu_loop_cons, H1, H2, H3.
    cbn [existsb]. rewrite (String.eqb_sym "4" choice).
    destruct (String.eqb choice "4").
    + split; reflexivity.
    + unfold bind, print. cbn [orb].
      destruct (IH Hrest (to_stdout "Invalid choice. Please enter 1, 2, 3, or 4."
                            (to_stdout choice_prompt (snd (print_menu w)))))
        as [Hres Hwr].
      split; [ exact Hres | ]. rewrite Hwr. reflexivity.
Qed.

(** With the source file there, [main] reaches the menu with the enriched
    table and the selection. *)
Lemma main_loaded (P : Packages)
  (visualize : list Enriched -> string -> list string -> M unit)
  (w : World) (table : list RawRow) (inputs : list string) :
  disk w file_path = Some table ->
  main P visualize inputs w
  = menu_loop P visualize (feature_engineering (dropna table))
      (selected_countries P (feature_engineering (dropna table))) inputs
      (to_stdout (nl ++ "Selecting countries with comparable populations...")
         (to_stdout "--- Interactive Data Analysis and Visualization ---" w)).
Proof.
  intros Hdisk.
  unfold main, bind at 1. unfold print at 1.
  unfold bind at 1.
  rewrite (data_preparation_found _ file_path table) by exact Hdisk.
  reflexivity.
Qed.

(** X14. A session in which no line typed at the menu is 1, 2 or 3 runs no
    analysis.  When the source file is there, [main] writes no file; it
    returns when one of the lines is 4, and fails with EOFError when the lines
    run out first. *)
Theorem idle_session (P : Packages)
  (visualize : list Enriched -> string -> list string -> M unit)
  (w : World) (table : list RawRow) (inputs : list string) :
  disk w file_path = Some table ->
  forallb idle_choice inputs = true ->
  fst (main P visualize inputs w)
  = (if existsb (String.eqb "4") inputs then Returned tt else Raised EOFError) /\
  written (snd (main P visualize inputs w)) = written w.
Proof.
  intros Hdisk Hidle.
  rewrite (main_loaded P visualize w table inputs Hdisk).
  destruct (menu_loop_idle P visualize (feature_engineering (dropna table))
              (selected_countries P (feature_engineering (dropna table)))
              inputs Hidle
              (to_stdout (nl ++ "Selecting countries with comparable populations...")
                 (to_stdout "--- Interactive Data Analysis and Visualization ---" w)))
    as [Hres Hwr].
  split; [ exact Hres | ]. rewrite Hwr. reflexivity.
Qed.

Lemma idle_session_witness :
  fst (main accepting_packages (fun _ _ _ => ret tt) ["x"; ""; "4"]%string
         {| disk := fun _ => Some raw_table; stdout := []; written := [] |})
    = Returned tt /\
  written (snd (main accepting_packages (fun _ _ _ => ret tt) ["x"; ""; "4"]%string
                  {| disk := fun _ => Some raw_table; stdout := []; written := [] |}))
    = [].
Proof.
  apply (idle_session accepting_packages (fun _ _ _ => ret tt)
           {| disk := fun _ => Some raw_table; stdout := []; written := [] |}
           raw_table ["x"; ""; "4"]%string); reflexivity.
Defined.

(** X15. A failing analysis ends the session.  When the package fails on the
    data, with an exception e, typing 1 at the menu makes the loop fail with
    e: the lines that follow are not read and no file is written. *)
Theorem failed_regression_ends_session (P : Packages)
  (visualize : list Enriched -> string -> list string -> M unit)
  (df : list Enriched) (sel : list string) (rest : list string) (w : World) (e : exn) :
  (OLS P (column GDP_per_capita df) (add_constant P (regressors df)) = Raised e \/
   exists m, OLS P (column GDP_per_capita df) (add_constant P (regressors df)) = Returned m /\
             OLS_fit P m = Raised e) ->
  fst (menu_loop P visualize df sel ("1"%string :: rest) w) = Raised e /\
  written (snd (menu_loop P visualize df sel ("1"%string :: rest) w)) = written w.
Proof.
  intros H. rewrite menu_loop_cons. cbn [String.eqb Ascii.eqb Bool.eqb].
  unfold bind. rewrite perform_regression_run. cbv zeta.
  destruct H as [H|(m & Hm & Hf)].
  - rewrite H. split; reflexivity.
  - rewrite Hm, Hf. split; reflexivity.
Qed.

Lemma failed_regression_ends_session_witness :
  fst (menu_loop rejecting_packages (fun _ _ _ => ret tt)
         (feature_engineering df_collinear) [] ["1"; "4"]%string empty_world)
    = Raised (Exn "LinAlgError") /\
  written (snd (menu_loop rejecting_packages (fun _ _ _ => ret tt)
                  (feature_engineering df_collinear) [] ["1"; "4"]%string empty_world))
    = [].
Proof.
  apply (failed_regression_ends_session rejecting_packages (fun _ _ _ => ret tt)
           (feature_engineering df_collinear) [] ["4"%string] empty_world
           (Exn "LinAlgError")).
  left. reflexivity.
Defined.

(** X16. The same for the panel analysis: when the package fails on the
    indexed data, typing 3 at the menu makes the loop fail with that
    exception, the following lines unread and no file written. *)
Theorem failed_panel_analysis_ends_session (P : Packages)
  (visualize : list Enriched -> string -> list string -> M unit)
  (df : list Enriched) (sel : list string) (rest : list string) (w : World) (e : exn) :
  (PanelOLS P (panel_dependent df) (panel_exog df) true = Raised e \/
   exists m, PanelOLS P (panel_dependent df) (panel_exog df) true = Returned m /\
             PanelOLS_fit P m = Raised e) ->
  fst (menu_loop P visualize df sel ("3"%string :: rest) w) = Raised e /\
  written (snd (menu_loop P visualize df sel ("3"%string :: rest) w)) = written w.
Proof.
  intros H. rewrite menu_loop_cons. cbn [String.eqb Ascii.eqb Bool.eqb].
  unfold bind. rewrite perform_panel_analysis_run. cbv zeta.
  destruct H as [H|(m & Hm & Hf)].
  - rewrite H. split; reflexivity.
  - rewrite Hm, Hf. split; reflexivity.
Qed.

Lemma failed_panel_analysis_ends_session_witness :
  fst (menu_loop rejecting_packages (fun _ _ _ => ret tt)
         (feature_engineering df_collinear) [] ["3"; "4"]%string empty_world)
    = Raised (Exn "ValueError") /\
  written (snd (menu_loop rejecting_packages (fun _ _ _ => ret tt)
                  (feature_engineering df_collinear) [] ["3"; "4"]%string empty_world))
    = [].
Proof.
  apply (failed_panel_analysis_ends_session rejecting_packages (fun _ _ _ => ret tt)
           (feature_engineering df_collinear) [] ["4"%string] empty_world
           (Exn "ValueError")).
  left. reflexivity.
Defined.

(** ** The charts *)

(** X17. No chart is drawn for a line that names none of the five charts,
    nor for the facet chart when no country is selected: the call returns,
    writes no file and prints its opening line and a notice, whatever the
    charting packages would do. *)
Theorem visualize_data_no_chart (C : Charts) (df : list Enriched)
  (vis_choice : string) (selected_countries : list string) (w : World) :
  chart_choice vis_choice = false \/
  (vis_choice = "3"%string /\ selected_countries = []) ->
  fst (visualize_data C df vis_choice selected_countries w) = Returned tt /\
  written (snd (visualize_data C df vis_choice selected_countries w)) = written w /\
  stdout (snd (visualize_data C df vis_choice selected_countries w))
  = stdout w ++
    [ (nl ++ "Generating Visualizations...")%string;
      if chart_choice vis_choice
      then "No countries selected for the facet chart. Please select countries first."%string
      else "Invalid visualization choice."%string ].
Proof.
  intros [H|[-> ->]].
  - rewrite H. unfold chart_choice in H. rewrite !orb_false_iff in H.
    destruct H as [[[[H1 H2] H3] H4] H5].
    unfold visualize_data, bind, print. rewrite H1, H2, H3, H4, H5.
    cbn [fst snd to_stdout stdout written]. rewrite <- app_assoc.
    repeat split; reflexivity.
  - unfold visualize_data, bind, print.
    cbn [String.eqb Ascii.eqb Bool.eqb chart_choice orb fst snd to_stdout stdout written].
    rewrite <- app_assoc. repeat split; reflexivity.
Qed.

Lemma visualize_data_no_chart_witness :
  visualize_data failing_charts (feature_engineering df_order) "3" [] empty_world
  = (Returned tt,
     {| disk := disk empty_world;
        stdout := [ (nl ++ "Generating Visualizations...")%string;
                    "No countries selected for the facet chart. Please select countries first."%string ];
        written := [] |}) /\
  fst (visualize_data failing_charts (feature_engineering df_order) "7" ["Abe"%string]
         empty_world) = Returned tt.
Proof.
  split; [ reflexivity | ].
  apply (visualize_data_no_chart failing_charts (feature_engineering df_order)
           "7" ["Abe"%string] empty_world).
  left. reflexivity.
Defined.

(** X18. A call of [visualize_data] adds at most one file, under one of the
    five chart names, and none when it fails: the two summaries are never
    touched. *)
Theorem visualize_data_files (C : Charts) (df : list Enriched)
  (vis_choice : string) (selected_countries : list string) (w : World) :
  exists added,
    written (snd (visualize_data C df vis_choice selected_countries w))
    = written w ++ added /\
    List.length added <= 1 /\
    (forall name figure, In (name, figure) added -> In name chart_files) /\
    (forall e, fst (visualize_data C df vis_choice selected_countries w) = Raised e ->
               added = []).
Proof.
  assert (Hnone : forall r : result unit * World,
            written (snd r) = written w ->
            exists added, written (snd r) = written w ++ added /\
              List.length added <= 1 /\
              (forall name figure, In (name, figure) added -> In name chart_files) /\
              (forall e, fst r = Raised e -> added = [])).
  { intros r Hr. exists []. rewrite app_nil_r.
    split; [ exact Hr | ]. split; [ simpl; lia | ].
    split; [ intros ? ? [] | reflexivity ]. }
  assert (Hone : forall (name figure : string) (w' : World),
            In name chart_files -> written w' = written w ++ [(name, figure)] ->
            exists added, written (snd (Returned tt, w')) = written w ++ added /\
              List.length added <= 1 /\
              (forall n f, In (n, f) added -> In n chart_files) /\
              (forall e, fst (@Returned unit tt, w') = Raised e -> added = [])).
  { intros name figure w' Hname Hw'. exists [(name, figure)].
    split; [ exact Hw' | ]. split; [ simpl; lia | ].
    split; [ | discriminate ].
    intros n f [E|[]]. now injection E as <- <-. }
  unfold visualize_data, bind, print, call, write_file.
  destruct (String.eqb vis_choice "1").
  { destruct (bar_chart C df) as [figure|e0].
    - apply (Hone "gdp_by_income_group_bar_chart.png"%string figure);
        [ simpl; tauto | reflexivity ].
    - apply Hnone; reflexivity. }
  destruct (String.eqb vis_choice "2").
  { destruct (line_plot C df) as [figure|e0].
    - apply (Hone "gdp_by_income_group_line_plot.png"%string figure);
        [ simpl; tauto | reflexivity ].
    - apply Hnone; reflexivity. }
  destruct (String.eqb vis_choice "3").
  { destruct selected_countries as [|c sel].
    - apply Hnone; reflexivity.
    - destruct (facet_chart C (filter (isin (c :: sel)) df)) as [figure|e0].
      + apply (Hone "gdp_comparative_facet_chart.png"%string figure);
          [ simpl; tauto | reflexivity ].
      + apply Hnone; reflexivity. }
  destruct (String.eqb vis_choice "4").
  { destruct (scatter_plots C df) as [figure|e0].
    - apply (Hone "sectoral_impact_scatter_plots.png"%string figure);
        [ simpl; tauto | reflexivity ].
    - apply Hnone; reflexivity. }
  destruct (String.eqb vis_choice "5").
  { destruct (box_plot C df) as [figure|e0].
    - apply (Hone "gdp_by_income_group_boxplot.png"%string figure);
        [ simpl; tauto | reflexivity ].
    - apply Hnone; reflexivity. }
  apply Hnone; reflexivity.
Qed.

(** ** Sessions of analyses *)

(** X19. Each analysis leaves its summary.  With packages that fit the data,
    a session of lines 1 and 3 closed by a 4 returns, and the files written
    are, in the order of the lines, regression_summary.txt for a 1 and
    panel_regression_summary.txt for a 3; what is typed after the 4 is not
    read. *)
Theorem analyses_session (P : Packages)
  (visualize : list Enriched -> string -> list string -> M unit)
  (df : list Enriched) (sel : list string)
  (m : OLSModel P) (res : OLSResults P) (pm : PanelModel P) (pres : PanelResults P)
  (choices rest : list string) (w : World) :
  OLS P (column GDP_per_capita df) (add_constant P (regressors df)) = Returned m ->
  OLS_fit P m = Returned res ->
  PanelOLS P (panel_dependent df) (panel_exog df) true = Returned pm ->
  PanelOLS_fit P pm = Returned pres ->
  forallb analysis_choice choices = true ->
  fst (menu_loop P visualize df sel (choices ++ "4"%string :: rest) w) = Returned tt /\
  written (snd (menu_loop P visualize df sel (choices ++ "4"%string :: rest) w))
  = written w ++ map (artifact_of P res pres) choices.
Proof.
  intros Hm Hf Hpm Hpf. revert w.
  induction choices as [|c choices IH]; intros w Hall.
  - cbn [app map]. rewrite menu_loop_cons, app_nil_r. split; reflexivity.
  - cbn [forallb] in Hall. apply andb_true_iff in Hall. destruct Hall as [Hc Hall].
    cbn [app map]. rewrite menu_loop_cons. unfold artifact_of at 1.
    unfold analysis_choice in Hc.
    destruct (String.eqb c "1") eqn:E1.
    + unfold bind. rewrite perform_regression_run. cbv zeta. rewrite Hm, Hf.
      match goal with
      | |- context [menu_loop P visualize df sel _ ?w'] =>
          destruct (IH w' Hall) as [Hres Hwr]
      end.
      split; [ exact Hres | ]. rewrite Hwr. cbn [written to_stdout to_file].
      now rewrite <- app_assoc.
    + cbn [orb] in Hc. apply String.eqb_eq in Hc. subst c.
      cbn [String.eqb Ascii.eqb Bool.eqb].
      unfold bind. rewrite perform_panel_analysis_run. cbv zeta. rewrite Hpm, Hpf.
      match goal with
      | |- context [menu_loop P visualize df sel _ ?w'] =>
          destruct (IH w' Hall) as [Hres Hwr]
      end.
      split; [ exact Hres | ]. rewrite Hwr. cbn [written to_stdout to_file].
      now rewrite <- app_assoc.
Qed.

Lemma analyses_session_witness :
  fst (menu_loop accepting_packages (fun _ _ _ => ret tt)
         (feature_engineering df_collinear) [] ["3"; "1"; "4"; "1"]%string empty_world)
    = Returned tt /\
  written (snd (menu_loop accepting_packages (fun _ _ _ => ret tt)
                  (feature_engineering df_collinear) [] ["3"; "1"; "4"; "1"]%string
                  empty_world))
    = [ ("panel_regression_summary.txt"%string, "PanelOLS Estimation Summary"%string);
        ("regression_summary.txt"%string, "OLS Regression Results"%string) ].
Proof.
  apply (analyses_session accepting_packages (fun _ _ _ => ret tt)
           (feature_engineering df_collinear) []
           (column GDP_per_capita (feature_engineering df_collinear),
            map (cons 1%float) (regressors (feature_engineering df_collinear)))
           (column GDP_per_capita (feature_engineering df_collinear),
            map (cons 1%float) (regressors (feature_engineering df_collinear)))
           (panel_dependent (feature_engineering df_collinear),
            panel_exog (feature_engineering df_collinear))
           (panel_dependent (feature_engineering df_collinear),
            panel_exog (feature_engineering df_collinear))
           ["3"; "1"]%string ["1"%string] empty_world); reflexivity.
Defined.

(** ** A country with two labels *)

(** X20. A country is listed once per label it carries: when a country of
    comparable population has the labels of two different groups on its rows,
    and at most three countries qualify for each of the two groups, that
    country is in what each of the two groups adds, and the list returned
    holds it at least twice. *)
Theorem two_labels_listed_twice (P : Packages) (df : list Enriched)
  (g h : IncomeGroup) (c : string) :
  g <> h ->
  in_band (mean P (population_of df c)) = true ->
  (exists r, In r df /\ country r = c /\ Income_Group r = g) ->
  (exists r, In r df /\ country r = c /\ Income_Group r = h) ->
  List.length (group_countries P df g) <= 3 ->
  List.length (group_countries P df h) <= 3 ->
  In c (group_contribution P df g) /\
  In c (group_contribution P df h) /\
  2 <= count_occ string_dec (selected_countries P df) c.
Proof.
  intros Hgh Hband Hg Hh Lg Lh.
  pose proof (group_countries_qualifies P df g c Hband Hg) as Ig.
  pose proof (group_countries_qualifies P df h c Hband Hh) as Ih.
  rewrite <- (firstn_all2 (group_countries P df g) Lg) in Ig.
  rewrite <- (firstn_all2 (group_countries P df h) Lh) in Ih.
  fold (group_contribution P df g) in Ig.
  fold (group_contribution P df h) in Ih.
  split; [ exact Ig | ]. split; [ exact Ih | ].
  apply (count_occ_In string_dec) in Ig. apply (count_occ_In string_dec) in Ih.
  rewrite selected_countries_concat, !count_occ_app.
  destruct g, h; try congruence; lia.
Qed.

Lemma two_labels_listed_twice_witness :
  In "Atlantis"%string
     (group_contribution accepting_packages (feature_engineering df_two_labels) Low_income) /\
  In "Atlantis"%string
     (group_contribution accepting_packages (feature_engineering df_two_labels)
        Lower_middle_income) /\
  2 <= count_occ string_dec
         (selected_countries accepting_packages (feature_engineering df_two_labels))
         "Atlantis"%string.
Proof.
  apply (two_labels_listed_twice accepting_packages
           (feature_engineering df_two_labels)
           Low_income Lower_middle_income "Atlantis").
  - discriminate.
  - reflexivity.
  - eexists. split; [ left; reflexivity | ]. split; reflexivity.
  - eexists. split; [ right; left; reflexivity | ]. split; reflexivity.
  - vm_compute. lia.
  - vm_compute. lia.
Defined.
